(** * gitweb-syntax: language detection for Gitweb blob pages

    A shallow embedding of the resolution logic of the repository's
    [syntax.js] in its four revisions, and the properties of it that the
    specification states.

    - [Syntax0]: [src/syntax.js], the first revision (extension only).
    - [Syntax1]: the revision with [Utils] and [VALID_LANG_NAMES]
      (shebang detection added).
    - [Syntax2]: the revision with [LANG_PRIMARY_FILE_TYPES] whose
      [isFileTypeValid] hands the object itself to [Utils.inArray]
      (two copies of it exist, which differ in comments and layout only).
    - [Syntax3]: the last revision ([isValidFileType],
      [getFileTypeAssocations]).

    Strings are sequences of code units below 256 ([string]); the DOM is
    represented by the two values the code reads from it: the query string
    [document.location.search] and the text of the first [.page_body .pre]
    element.  The call [hljs.configure] is the observable result. *)

From Stdlib Require Import String Ascii List Bool Arith Lia.
Import ListNotations.
Local Open Scope string_scope.
Local Open Scope list_scope.

(** ** JavaScript values and exceptions *)

Module JS.

(** The values a file type variable holds in the code. *)
Inductive jsval : Type :=
| JUndefined
| JNull
| JStr (s : string).

Inductive jserror : Type :=
| TypeError
| ReferenceError.

(** A computation that returns or throws. *)
Inductive result (A : Type) : Type :=
| Ok (a : A)
| Throw (e : jserror).
Arguments Ok {A} a.
Arguments Throw {A} e.

Definition bind {A B : Type} (m : result A) (k : A -> result B) : result B :=
  match m with
  | Ok a => k a
  | Throw e => Throw e
  end.

Definition jsval_eqb (a b : jsval) : bool :=
  match a, b with
  | JUndefined, JUndefined => true
  | JNull, JNull => true
  | JStr s, JStr t => String.eqb s t
  | _, _ => false
  end.

(** [ToBoolean] on the values above: [undefined], [null] and the empty
    string are falsy. *)
Definition truthy (v : jsval) : bool :=
  match v with
  | JStr "" => false
  | JStr _ => true
  | _ => false
  end.

(** [ToPropertyKey]: the name under which [obj[v]] looks. *)
Definition propertyKey (v : jsval) : string :=
  match v with
  | JUndefined => "undefined"
  | JNull => "null"
  | JStr s => s
  end.

(** [arr[i]] on an array of strings. *)
Definition index (arr : list string) (i : nat) : jsval :=
  match nth_error arr i with
  | Some s => JStr s
  | None => JUndefined
  end.

(** [arr.indexOf(needle) !== -1] on an array of strings (strict equality). *)
Definition includes (needle : jsval) (arr : list string) : bool :=
  existsb (fun s => jsval_eqb needle (JStr s)) arr.

(** An object literal whose properties were written in the order of the
    list; [Object.keys] gives them back in that order. *)
Definition object (V : Type) : Type := list (string * V).

Definition keys {V : Type} (o : object V) : list string := map fst o.

(** [o[k]] for an own property; the code reads a table only under a key it
    has found in [Object.keys] or under a language name, never under a name
    that [Object.prototype] defines. *)
Fixpoint get {V : Type} (o : object V) (k : string) : option V :=
  match o with
  | [] => None
  | (k', v) :: o' => if String.eqb k k' then Some v else get o' k
  end.

(** *** [String.prototype.split] *)

(** Prepend a code unit to the segment under construction. *)
Definition push_front (c : ascii) (segs : list string) : list string :=
  match segs with
  | seg :: rest => String c seg :: rest
  | [] => [String c ""]
  end.

(** Left-to-right scan for a non-empty separator; [skip] counts the code
    units of a separator just matched that are still to be passed over. *)
Fixpoint split_go (sep s : string) (skip : nat) : list string :=
  match s with
  | EmptyString => [""]
  | String c s' =>
      match skip with
      | S k => split_go sep s' k
      | O =>
          if String.prefix sep s
          then "" :: split_go sep s' (String.length sep - 1)
          else push_front c (split_go sep s' 0)
      end
  end.

(** [s.split(sep)] for a string separator; the empty separator splits
    between all code units. *)
Definition split (sep s : string) : list string :=
  match sep with
  | EmptyString => map (fun c => String c "") (list_ascii_of_string s)
  | _ => split_go sep s 0
  end.

(** The code units that [\s] matches, among those below 256: TAB, LF, VT,
    FF, CR, SPACE and NBSP. *)
Definition isWhiteSpace (c : ascii) : bool :=
  let n := nat_of_ascii c in
  (((9 <=? n)%nat && (n <=? 13)%nat) || (n =? 32)%nat || (n =? 160)%nat)%bool.

(** [s.split(/\s/)]: a cut at every code unit of the class. *)
Fixpoint split_class (p : ascii -> bool) (s : string) : list string :=
  match s with
  | EmptyString => [""]
  | String c s' =>
      if p c then "" :: split_class p s'
      else push_front c (split_class p s')
  end.

End JS.
Export JS.

Declare Scope js_scope.
Delimit Scope js_scope with js.
Notation "x <- m ;; k" := (bind m (fun x => k))
  (at level 61, m at next level, right associativity) : js_scope.
Local Open Scope js_scope.

(** What a run of the page handler does to the highlighter: it returns
    without touching it, or it calls [hljs.configure] with a tab replacement
    and the list of languages (and then highlights every block). *)
Inductive outcome : Type :=
| Returned
| Configured (tabReplace : string) (languages : list jsval).

(** ** [src/syntax.js] *)

Module Syntax0.

Definition VALID_FILE_TYPES : list string :=
  ["c"; "css"; "js";
   "htaccess"; "html";
   "json"; "md"; "php";
   "pl"; "py"; "rb";
   "sh"; "xml"; "xslt"].

Definition VALID_FILE_TYPE_SYNONYMS : object (list string) :=
  [("c", ["cpp"; "h"]);
   ("html", ["htm"; "dhtml"; "xhtml"]);
   ("js", ["jse"; "json"]);
   ("pl", ["cgi"; "perl"]);
   ("php", ["php5"; "phtml"]);
   ("rb", ["erb"])].

Definition VALID_FILE_TYPE_ASSOCS : object (list string) :=
  [("html", ["css"; "js"; "php"]);
   ("json", ["js"]);
   ("php", ["css"; "html"; "js"])].

(** [split] with a non-empty separator never returns the empty array, so
    [length - 1] below is the JavaScript difference. *)
Definition isFileBlob (queryString : string) : bool :=
  let splitQueryString := split ";a=blob" queryString in
  let isBlob := length splitQueryString - 1 in
  if (isBlob =? 0)%nat then false else true.

(** [fileTypes.concat(x)]: an array is spliced in, any other value is
    appended as one element. *)
Definition concat (fileTypes : list jsval) (x : option (list string)) : list jsval :=
  match x with
  | Some arr => fileTypes ++ map JStr arr
  | None => fileTypes ++ [JUndefined]
  end.

Definition getFileTypeAssocs (fileType : jsval) : list jsval :=
  let fileTypes := [fileType] in
  let keys := keys VALID_FILE_TYPE_ASSOCS in
  if negb (includes fileType keys) then fileTypes
  else concat fileTypes (get VALID_FILE_TYPE_ASSOCS (propertyKey fileType)).

(** The loop over [keys[i]] and [VALID_FILE_TYPE_SYNONYMS[keys[i]]], that
    is over the entries of the table in the order of its keys. *)
Fixpoint getPrimaryFileType_loop (entries : object (list string)) (fileType : jsval) : jsval :=
  match entries with
  | [] => JNull
  | (thisKey, thisFileTypeSynonyms) :: rest =>
      if includes fileType thisFileTypeSynonyms then JStr thisKey
      else getPrimaryFileType_loop rest fileType
  end.

Definition getPrimaryFileType (fileType : jsval) : jsval :=
  getPrimaryFileType_loop VALID_FILE_TYPE_SYNONYMS fileType.

Fixpoint isFileTypeSynonym_loop (entries : object (list string)) (fileType : jsval) : bool :=
  match entries with
  | [] => false
  | (thisKey, thisFileTypeSynonyms) :: rest =>
      if includes fileType thisFileTypeSynonyms then true
      else isFileTypeSynonym_loop rest fileType
  end.

Definition isFileTypeSynonym (fileType : jsval) : bool :=
  isFileTypeSynonym_loop VALID_FILE_TYPE_SYNONYMS fileType.

(** [splitQueryString[1].split(';')[0]]; index 1 exists where this is
    evaluated and [split] gives at least one segment, so no default of
    [nth] or [hd] is ever taken. *)
Definition pathNameOf (splitQueryString : list string) : string :=
  hd "" (split ";" (nth 1 splitQueryString "")).

(** The last segment of the last segment: the extension of the file name. *)
Definition fileTypeOf (pathName : string) : string :=
  let splitPathName := split "/" pathName in
  let fileName := nth (length splitPathName - 1) splitPathName "" in
  let splitFileName := split "." fileName in
  nth (length splitFileName - 1) splitFileName "".

(** The reassignment of [fileType]: a primary file type is kept, anything
    else goes through the synonym table. *)
Definition primaryOf (fileType : string) : jsval :=
  if negb (includes (JStr fileType) VALID_FILE_TYPES)
  then getPrimaryFileType (JStr fileType)
  else JStr fileType.

Definition highlightSyntax (queryString : string) : outcome :=
  let splitQueryString := split ";f=" queryString in
  let isFile := length splitQueryString - 1 in
  if (isFile =? 0)%nat then Returned
  else
    let pathName := pathNameOf splitQueryString in
    let fileType := fileTypeOf pathName in
    let isValidFileType :=
      (includes (JStr fileType) VALID_FILE_TYPES || isFileTypeSynonym (JStr fileType))%bool in
    if negb isValidFileType then Returned
    else
      let fileType := primaryOf fileType in
      let fileTypes := getFileTypeAssocs fileType in
      Configured " " fileTypes.

Definition onReady (queryString : string) : outcome :=
  if negb (truthy (JStr queryString)) then Returned
  else
    let isBlob := isFileBlob queryString in
    if negb isBlob then Returned
    else highlightSyntax queryString.

End Syntax0.

(** ** The [Utils] object of the later revisions *)

Module Utils.

(** [Utils.toBool] on a number. *)
Definition toBool (n : nat) : bool := negb (n =? 0)%nat.

(** A separator handed to [Utils.toArray]: a string, or the regular
    expression [/\s/] given by the class it matches. *)
Inductive separator : Type :=
| SepString (s : string)
| SepRegExp (class : ascii -> bool).

(** [Utils.toArray]: a value that is no string (no number occurs) is
    refused with a [TypeError]. *)
Definition toArray (value : jsval) (sep : separator) : result (list string) :=
  match value with
  | JStr s =>
      Ok match sep with
         | SepString d => split d s
         | SepRegExp class => split_class class s
         end
  | _ => Throw TypeError
  end.

(** What the code hands to [Utils.inArray] as [haystack]. *)
Inductive haystack : Type :=
| HArray (arr : list string)
| HObject (obj : object string).

(** [Utils.inArray]: a haystack that is no [Array] is refused. *)
Definition inArray (needle : jsval) (h : haystack) : result bool :=
  match h with
  | HArray arr => Ok (includes needle arr)
  | HObject _ => Throw TypeError
  end.

(** [Utils.getKeys] on an object literal. *)
Definition getKeys {V : Type} (obj : object V) : list string := keys obj.

(** [Utils.getLastIndex] on an array. *)
Definition getLastIndex (arr : list string) : nat :=
  if (0 <? length arr)%nat then length arr - 1 else 0.

(** [a && b] where only [b] can throw. *)
Definition andThen (a : bool) (b : result bool) : result bool :=
  if a then b else Ok false.

End Utils.
Export Utils.

(** ** The [Syntax] object, over the tables of a revision

    The three later revisions share the code below and differ in their
    tables, in what [isFileTypeValid] hands to [inArray], and in whether the
    identifier that names the language list is bound. *)

Module Engine.
Section Revision.

(** The haystack of primary file types that [isFileTypeValid] and
    [highlightSyntax] hand to [inArray]. *)
Variable PRIMARY : haystack.
Variable SYNONYMS : object (list string).
Variable ASSOCS : object (list string).
(** Reading the identifier that [getExecutableType] searches: its value,
    or the [ReferenceError] of an identifier declared nowhere. *)
Variable LANG_NAMES : result haystack.
Variable EXEC_FILE_TYPES : object string.
Variable TAB_REPLACE : string.

Definition isFileBlob (queryString : string) : result bool :=
  arr <- toArray (JStr queryString) (SepString ";a=blob") ;;
  Ok (toBool (getLastIndex arr)).

Definition getFileTypeAssocs (fileType : jsval) : result (list jsval) :=
  let fileTypes := [fileType] in
  let keys := getKeys ASSOCS in
  found <- inArray fileType (HArray keys) ;;
  if negb found then Ok fileTypes
  else Ok (Syntax0.concat fileTypes (get ASSOCS (propertyKey fileType))).

Fixpoint getPrimaryFileType_loop (entries : object (list string)) (fileType : jsval)
  : result jsval :=
  match entries with
  | [] => Ok JNull
  | (thisKey, synonyms) :: rest =>
      found <- inArray fileType (HArray synonyms) ;;
      if found then Ok (JStr thisKey)
      else getPrimaryFileType_loop rest fileType
  end.

Definition getPrimaryFileType (fileType : jsval) : result jsval :=
  getPrimaryFileType_loop SYNONYMS fileType.

Fixpoint isFileTypeSynonym_loop (entries : object (list string)) (fileType : jsval) : bool :=
  match entries with
  | [] => false
  | (thisKey, synonyms) :: rest =>
      if includes fileType synonyms then true
      else isFileTypeSynonym_loop rest fileType
  end.

Definition isFileTypeSynonym (fileType : jsval) : bool :=
  isFileTypeSynonym_loop SYNONYMS fileType.

(** [fslocText] is the text of the first source line element, the empty
    string when the page has none. *)
Definition getExecutableType (fslocText : string) : result jsval :=
  parts <- toArray (JStr fslocText) (SepString "#!") ;;
  let targetPath := index parts 1 in
  components <- toArray targetPath (SepString "/") ;;
  let executable := index components (getLastIndex components) in
  flagOptions <- toArray executable (SepRegExp isWhiteSpace) ;;
  let hasOptions := toBool (getLastIndex flagOptions) in
  plain <- andThen (negb hasOptions)
             (names <- LANG_NAMES ;; inArray executable names) ;;
  if plain then Ok executable
  else
    direct <- andThen hasOptions
                (names <- LANG_NAMES ;; inArray (index flagOptions 0) names) ;;
    if direct then Ok (index flagOptions 0)
    else
      indirect <- andThen hasOptions
                    (names <- LANG_NAMES ;; inArray (index flagOptions 1) names) ;;
      if indirect then Ok (index flagOptions 1)
      else Ok JNull.

Definition isExecutable (fslocText : string) : result bool :=
  arr <- toArray (JStr fslocText) (SepString "#!") ;;
  let lastIndex := getLastIndex arr in
  Ok (toBool lastIndex).

(** The three tests in the order of the code, each evaluated only when
    the ones before it failed. *)
Definition isFileTypeValid (fileType : jsval) (fslocText : string) : result bool :=
  primary <- inArray fileType PRIMARY ;;
  if primary then Ok true
  else if isFileTypeSynonym fileType then Ok true
  else
    executable <- isExecutable fslocText ;;
    if executable then
      type <- getExecutableType fslocText ;;
      Ok (truthy type)
    else Ok false.

(** [EXEC_FILE_TYPES[getExecutableType()]]: the first arm of the
    conditional that reassigns [fileType]. *)
Definition executableFileType (fslocText : string) : result jsval :=
  type <- getExecutableType fslocText ;;
  Ok match get EXEC_FILE_TYPES (propertyKey type) with
     | Some fileType => JStr fileType
     | None => JUndefined
     end.

(** The shebang as the code consults it.  Both call sites of
    [getExecutableType] stand behind [isExecutable()]: the test
    [isExecutable() && getExecutableType()] of [isFileTypeValid] and the
    first arm of the conditional of [highlightSyntax].  Where the gate is
    closed the first line gives no type, which is [null] here. *)
Definition shebangFileType (fslocText : string) : result jsval :=
  executable <- isExecutable fslocText ;;
  if executable then executableFileType fslocText
  else Ok JNull.

(** The other arm: a primary file type is kept, anything else goes through
    the synonym table. *)
Definition primaryOf (fileType : jsval) : result jsval :=
  primary <- inArray fileType PRIMARY ;;
  if negb primary then getPrimaryFileType fileType
  else Ok fileType.

(** [toArray(queryParams[1], ';')[0]]: the value of the [f] parameter,
    [None] when the early return for a missing [;f=] is taken. *)
Definition pathOf (queryString : string) : result (option jsval) :=
  queryParams <- toArray (JStr queryString) (SepString ";f=") ;;
  let lastIndex := getLastIndex queryParams in
  if negb (toBool lastIndex) then Ok None
  else
    path <- toArray (index queryParams 1) (SepString ";") ;;
    Ok (Some (index path 0)).

(** The last segment of the last segment of the path. *)
Definition extensionOf (path : jsval) : result jsval :=
  pathName <- toArray path (SepString "/") ;;
  fileName <- toArray (index pathName (getLastIndex pathName)) (SepString ".") ;;
  Ok (index fileName (getLastIndex fileName)).

(** The file type that [highlightSyntax] reads off the query string. *)
Definition fileTypeOf (queryString : string) : result (option jsval) :=
  found <- pathOf queryString ;;
  match found with
  | None => Ok None
  | Some path => fileType <- extensionOf path ;; Ok (Some fileType)
  end.

(** The reassigned [fileType], which is handed to [getFileTypeAssocs]. *)
Definition finalFileType (fileType : jsval) (fslocText : string) : result jsval :=
  executable <- isExecutable fslocText ;;
  if executable then executableFileType fslocText
  else primaryOf fileType.

Definition highlightSyntax (queryString fslocText : string) : result outcome :=
  found <- fileTypeOf queryString ;;
  match found with
  | None => Ok Returned
  | Some fileType =>
      valid <- isFileTypeValid fileType fslocText ;;
      if negb valid then Ok Returned
      else
        fileType <- finalFileType fileType fslocText ;;
        languages <- getFileTypeAssocs fileType ;;
        Ok (Configured TAB_REPLACE languages)
  end.

Definition onReady (queryString fslocText : string) : result outcome :=
  isBlob <- isFileBlob queryString ;;
  if negb (truthy (JStr queryString) && isBlob) then Ok Returned
  else highlightSyntax queryString fslocText.

End Revision.
End Engine.

(** ** The revision with [VALID_LANG_NAMES] *)

Module Syntax1.

Definition VALID_FILE_TYPES : list string :=
  ["c"; "css"; "js"; "go"; "htaccess"; "html"; "json"; "md"; "php";
   "pl"; "py"; "rb"; "sh"; "xml"; "xslt"].

Definition VALID_FILE_TYPE_SYNONYMS : object (list string) :=
  [("c", ["cpp"; "h"]);
   ("html", ["htm"; "dhtml"; "xhtml"]);
   ("js", ["jse"; "json"]);
   ("pl", ["cgi"; "perl"]);
   ("php", ["php5"; "phar"; "phtml"]);
   ("py", ["pyc"]);
   ("rb", ["erb"])].

Definition VALID_FILE_TYPE_ASSOCS : object (list string) :=
  [("html", ["css"; "js"; "php"]);
   ("json", ["js"]);
   ("php", ["css"; "html"; "js"])].

Definition VALID_LANG_NAMES : list string :=
  ["bash"; "c"; "cpp"; "css"; "javascript"; "go"; "html"; "markdown";
   "php"; "perl"; "python"; "ruby"; "xml"].

Definition VALID_LANG_ASSOC_FILE_TYPES : object string :=
  [("bash", "sh");
   ("perl", "pl");
   ("php", "php");
   ("python", "py");
   ("ruby", "rb");
   ("sh", "sh")].

Definition isFileBlob := Engine.isFileBlob.
Definition getFileTypeAssocs := Engine.getFileTypeAssocs VALID_FILE_TYPE_ASSOCS.
Definition getPrimaryFileType := Engine.getPrimaryFileType VALID_FILE_TYPE_SYNONYMS.
Definition isFileTypeSynonym := Engine.isFileTypeSynonym VALID_FILE_TYPE_SYNONYMS.
Definition getExecutableType :=
  Engine.getExecutableType (Ok (HArray VALID_LANG_NAMES)).
Definition isExecutable := Engine.isExecutable.
Definition isFileTypeValid :=
  Engine.isFileTypeValid (HArray VALID_FILE_TYPES) VALID_FILE_TYPE_SYNONYMS
    (Ok (HArray VALID_LANG_NAMES)).
Definition executableFileType :=
  Engine.executableFileType (Ok (HArray VALID_LANG_NAMES)) VALID_LANG_ASSOC_FILE_TYPES.
Definition shebangFileType :=
  Engine.shebangFileType (Ok (HArray VALID_LANG_NAMES)) VALID_LANG_ASSOC_FILE_TYPES.
Definition primaryOf :=
  Engine.primaryOf (HArray VALID_FILE_TYPES) VALID_FILE_TYPE_SYNONYMS.
Definition pathOf := Engine.pathOf.
Definition extensionOf := Engine.extensionOf.
Definition fileTypeOf := Engine.fileTypeOf.
Definition finalFileType :=
  Engine.finalFileType (HArray VALID_FILE_TYPES) VALID_FILE_TYPE_SYNONYMS
    (Ok (HArray VALID_LANG_NAMES)) VALID_LANG_ASSOC_FILE_TYPES.
Definition highlightSyntax :=
  Engine.highlightSyntax (HArray VALID_FILE_TYPES) VALID_FILE_TYPE_SYNONYMS
    VALID_FILE_TYPE_ASSOCS (Ok (HArray VALID_LANG_NAMES))
    VALID_LANG_ASSOC_FILE_TYPES "  ".
Definition onReady :=
  Engine.onReady (HArray VALID_FILE_TYPES) VALID_FILE_TYPE_SYNONYMS
    VALID_FILE_TYPE_ASSOCS (Ok (HArray VALID_LANG_NAMES))
    VALID_LANG_ASSOC_FILE_TYPES "  ".

End Syntax1.

(** ** The revisions with [LANG_PRIMARY_FILE_TYPES]

    Their tables are the same.  [getExecutableType] searches [LANG_NAMES],
    an identifier that no revision declares (the list is named
    [EXEC_LANG_NAMES]); the code runs in strict mode and the page defines no
    global of that name, so reading it throws. *)

Module Tables.

Definition LANG_PRIMARY_FILE_TYPES : object string :=
  [("bash", "sh");
   ("c", "c");
   ("cpp", "cpp");
   ("cs", "cs");
   ("css", "css");
   ("javascript", "js");
   ("go", "go");
   ("html", "html");
   ("markdown", "md");
   ("php", "php");
   ("perl", "pl");
   ("python", "py");
   ("ruby", "rb");
   ("sql", "sql");
   ("typescript", "ts");
   ("xml", "xml");
   ("yaml", "yml")].

Definition LANG_FILE_TYPE_SYNONYMS : object (list string) :=
  [("bash", ["bash"; "csh"; "ksh"; "zsh"]);
   ("c", ["h"]);
   ("html", ["htm"; "dhtml"; "xhtml"]);
   ("javascript", ["jse"; "json"]);
   ("markdown", ["markdown"]);
   ("perl", ["cgi"; "perl"]);
   ("php", ["php5"; "phar"; "phtml"]);
   ("python", ["pyc"]);
   ("ruby", ["erb"])].

Definition FILE_TYPE_ASSOCIATIONS : object (list string) :=
  [("html", ["css"; "js"; "php"]);
   ("json", ["js"]);
   ("javascript", ["css"; "html"; "json"; "php"]);
   ("php", ["css"; "html"; "js"])].

Definition EXEC_LANG_NAMES : list string :=
  ["bash"; "c"; "cpp"; "cs"; "go"; "perl"; "php"; "python"; "ruby"].

Definition EXEC_LANG_FILE_TYPES : object string :=
  [("bash", "bash");
   ("perl", "pl");
   ("php", "php");
   ("python", "py");
   ("ruby", "rb");
   ("sh", "bash")].

Definition LANG_NAMES : result haystack := Throw ReferenceError.

End Tables.

(** The revision whose [isFileTypeValid] and [highlightSyntax] call
    [inArray(fileType, LANG_PRIMARY_FILE_TYPES)] on the object. *)
Module Syntax2.
Import Tables.

(** This revision calls the association table [FILE_TYPE_ASSOCS]. *)
Definition FILE_TYPE_ASSOCS : object (list string) := FILE_TYPE_ASSOCIATIONS.

Definition isFileBlob := Engine.isFileBlob.
Definition getFileTypeAssocs := Engine.getFileTypeAssocs FILE_TYPE_ASSOCS.
Definition getExecutableType := Engine.getExecutableType LANG_NAMES.
Definition isExecutable := Engine.isExecutable.
Definition isFileTypeValid :=
  Engine.isFileTypeValid (HObject LANG_PRIMARY_FILE_TYPES) LANG_FILE_TYPE_SYNONYMS
    LANG_NAMES.
Definition highlightSyntax :=
  Engine.highlightSyntax (HObject LANG_PRIMARY_FILE_TYPES) LANG_FILE_TYPE_SYNONYMS
    FILE_TYPE_ASSOCS LANG_NAMES EXEC_LANG_FILE_TYPES "  ".
Definition onReady :=
  Engine.onReady (HObject LANG_PRIMARY_FILE_TYPES) LANG_FILE_TYPE_SYNONYMS
    FILE_TYPE_ASSOCS LANG_NAMES EXEC_LANG_FILE_TYPES "  ".

End Syntax2.

(** The last revision, which searches [getKeys(LANG_PRIMARY_FILE_TYPES)]. *)
Module Syntax3.
Import Tables.

Definition TAB_REPLACE : string := "  ".

Definition isFileBlob := Engine.isFileBlob.
Definition getFileTypeAssocations := Engine.getFileTypeAssocs FILE_TYPE_ASSOCIATIONS.
Definition getPrimaryFileType := Engine.getPrimaryFileType LANG_FILE_TYPE_SYNONYMS.
Definition isSynonymFileType := Engine.isFileTypeSynonym LANG_FILE_TYPE_SYNONYMS.
Definition getExecutableType := Engine.getExecutableType LANG_NAMES.
Definition isExecutable := Engine.isExecutable.
Definition isValidFileType :=
  Engine.isFileTypeValid (HArray (getKeys LANG_PRIMARY_FILE_TYPES))
    LANG_FILE_TYPE_SYNONYMS LANG_NAMES.
Definition primaryOf :=
  Engine.primaryOf (HArray (getKeys LANG_PRIMARY_FILE_TYPES)) LANG_FILE_TYPE_SYNONYMS.
Definition pathOf := Engine.pathOf.
Definition extensionOf := Engine.extensionOf.
Definition fileTypeOf := Engine.fileTypeOf.
Definition highlightSyntax :=
  Engine.highlightSyntax (HArray (getKeys LANG_PRIMARY_FILE_TYPES))
    LANG_FILE_TYPE_SYNONYMS FILE_TYPE_ASSOCIATIONS LANG_NAMES
    EXEC_LANG_FILE_TYPES TAB_REPLACE.
Definition onReady :=
  Engine.onReady (HArray (getKeys LANG_PRIMARY_FILE_TYPES))
    LANG_FILE_TYPE_SYNONYMS FILE_TYPE_ASSOCIATIONS LANG_NAMES
    EXEC_LANG_FILE_TYPES TAB_REPLACE.

End Syntax3.

(** ** The type predicates of [Utils]

    These look at a value through [typeof] and [instanceof] only, so a value
    is represented by its kind.  Objects are taken to inherit from
    [Object.prototype], as every object of the page does. *)

Module UtilsTypes.

Inductive kind : Type :=
| KUndefined
| KNull
| KBoolean
| KNumber
| KString
| KSymbol
| KBigInt
| KFunction
| KArray
| KElement
| KPlainObject   (* made by an object literal or [new Object] *)
| KOtherObject.  (* made by another constructor, such as [Date] *)

(** [typeof arg]. *)
Definition getType (arg : kind) : string :=
  match arg with
  | KUndefined => "undefined"
  | KBoolean => "boolean"
  | KNumber => "number"
  | KString => "string"
  | KSymbol => "symbol"
  | KBigInt => "bigint"
  | KFunction => "function"
  | KNull | KArray | KElement | KPlainObject | KOtherObject => "object"
  end.

(** [obj instanceof Object]. *)
Definition isObject (obj : kind) : bool :=
  match obj with
  | KFunction | KArray | KElement | KPlainObject | KOtherObject => true
  | _ => false
  end.

(** [Object.getPrototypeOf(obj).constructor.name === 'Object'], behind
    [isObject]. *)
Definition isNativeObject (obj : kind) : bool :=
  (isObject obj && match obj with KPlainObject => true | _ => false end)%bool.

(** [arr instanceof Array]. *)
Definition isArray (arr : kind) : bool :=
  match arr with KArray => true | _ => false end.

(** [element instanceof HTMLElement]. *)
Definition isElement (element : kind) : bool :=
  match element with KElement => true | _ => false end.

(** [typeof func === 'function' && func instanceof Function]. *)
Definition isFunction (func : kind) : bool :=
  (String.eqb (getType func) "function"
   && match func with KFunction => true | _ => false end)%bool.

Definition isScalar (arg : kind) : result bool :=
  let stypes := ["string"; "number"; "boolean"] in
  inArray (JStr (getType arg)) (HArray stypes).

Definition isComposite (arg : kind) : result bool :=
  let ctypes := ["object"; "symbol"; "undefined"] in
  inArray (JStr (getType arg)) (HArray ctypes).

End UtilsTypes.

(** ** Substrings *)

(** [sep] occurs in [s]. *)
Definition occurs (sep s : string) : Prop :=
  exists pre post : string, s = (pre ++ sep ++ post)%string.

(** The code unit [c] occurs in [s]. *)
Fixpoint has_char (c : ascii) (s : string) : bool :=
  match s with
  | EmptyString => false
  | String x s' => (Ascii.eqb c x || has_char c s')%bool
  end.

(** Append [b] to the last segment. *)
Fixpoint app_last (segs : list string) (b : string) : list string :=
  match segs with
  | [] => []
  | [seg] => [(seg ++ b)%string]
  | seg :: rest => seg :: app_last rest b
  end.

(** ** Tables *)

(** No token of the first entry is a token of the second. *)
Definition disjoint_entries (e1 e2 : string * list string) : bool :=
  forallb (fun tok => negb (existsb (String.eqb tok) (snd e2))) (snd e1).

(** Any two entries of the table have the same key or share no token. *)
Definition synonyms_disjointb (table : object (list string)) : bool :=
  forallb (fun e1 =>
    forallb (fun e2 => (String.eqb (fst e1) (fst e2) || disjoint_entries e1 e2)%bool)
      table) table.

(** No token stands under two different keys of the table. *)
Definition synonym_sets_disjoint (table : object (list string)) : Prop :=
  forall k1 s1 k2 s2 tok,
    In (k1, s1) table -> In (k2, s2) table -> k1 <> k2 ->
    In tok s1 -> ~ In tok s2.

(** No token of the table holds a dot or a slash. *)
Definition plain_tokens (table : object (list string)) : bool :=
  forallb (fun e =>
    forallb (fun tok => (negb (has_char "." tok) && negb (has_char "/" tok))%bool)
      (snd e)) table.

(** * Properties *)

(** ** [split] *)

Example split_blob :
  split ";a=blob" "?p=r.git;a=blob;f=src/main.c" = ["?p=r.git"; ";f=src/main.c"].
Proof. reflexivity. Qed.

Example split_overlap : split "aa" "aaa" = [""; "a"].
Proof. reflexivity. Qed.

Example split_empty : split "/" "" = [""].
Proof. reflexivity. Qed.

Example split_chars : split "" "abc" = ["a"; "b"; "c"].
Proof. reflexivity. Qed.

Example split_ws :
  split_class isWhiteSpace "env python -c" = ["env"; "python"; "-c"].
Proof. reflexivity. Qed.

Example s0_php5 :
  Syntax0.onReady ";a=blob;f=lib/app.php5"
  = Configured " " [JStr "php"; JStr "css"; JStr "html"; JStr "js"].
Proof. reflexivity. Qed.


Lemma prefix_spec (p s : string) :
  String.prefix p s = true <-> exists r, s = (p ++ r)%string.
Proof.
  revert s; induction p as [|a p IH]; intros s; simpl.
  - split; [intros _; now exists s | intros _; now destruct s].
  - destruct s as [|b s]; simpl.
    + split; [discriminate | intros [r Hr]; discriminate].
    + destruct (ascii_dec a b) as [->|Hab].
      * rewrite IH. split; intros [r Hr]; exists r; [now rewrite Hr | now inversion Hr].
      * split; [discriminate | intros [r Hr]; inversion Hr; congruence].
Qed.

Lemma split_go_nonempty (sep s : string) (k : nat) : split_go sep s k <> [].
Proof.
  revert k; induction s as [|c s IH]; intros k; cbn [split_go]; [discriminate|].
  destruct k; [|apply IH].
  destruct (String.prefix sep (String c s)); [discriminate|].
  unfold push_front. destruct (split_go sep s 0); discriminate.
Qed.

Lemma length_push_front (c : ascii) (segs : list string) :
  segs <> [] -> length (push_front c segs) = length segs.
Proof. destruct segs; [contradiction | reflexivity]. Qed.

Lemma occurs_cons (sep : string) (c : ascii) (s : string) :
  String.prefix sep (String c s) = false ->
  occurs sep (String c s) <-> occurs sep s.
Proof.
  intros Hp; split; intros (pre & post & H).
  - destruct pre as [|x pre]; simpl in H.
    + assert (String.prefix sep (String c s) = true) by (apply prefix_spec; eauto).
      congruence.
    + inversion H; subst. now exists pre, post.
  - exists (String c pre), post. simpl. now rewrite H.
Qed.

Lemma occurs_empty (sep : string) : sep <> "" -> ~ occurs sep "".
Proof.
  intros Hsep (pre & post & H).
  destruct pre; simpl in H; [|discriminate].
  destruct sep; [contradiction | discriminate].
Qed.

(** The array has more than one element exactly when the separator occurs. *)
Lemma split_go_occurs (sep s : string) :
  sep <> "" -> 2 <= length (split_go sep s 0) <-> occurs sep s.
Proof.
  intros Hsep; induction s as [|c s IH]; cbn [split_go].
  - simpl. split; [lia | intros H; now apply occurs_empty in H].
  - destruct (String.prefix sep (String c s)) eqn:Hp.
    + split.
      * intros _. apply prefix_spec in Hp as [r Hr]. exists "", r. exact Hr.
      * intros _. simpl.
        pose proof (split_go_nonempty sep s (String.length sep - 1)).
        destruct (split_go sep s (String.length sep - 1)); [contradiction | simpl; lia].
    + rewrite length_push_front by apply split_go_nonempty.
      rewrite IH. now rewrite (occurs_cons sep c s Hp).
Qed.

Lemma split_occurs (a : ascii) (sep s : string) :
  2 <= length (split (String a sep) s) <-> occurs (String a sep) s.
Proof. unfold split. apply split_go_occurs. discriminate. Qed.

Lemma split_nonempty (a : ascii) (sep s : string) :
  1 <= length (split (String a sep) s).
Proof.
  unfold split. pose proof (split_go_nonempty (String a sep) s 0).
  destruct (split_go (String a sep) s 0); [contradiction | simpl; lia].
Qed.

Lemma toBool_getLastIndex (arr : list string) :
  toBool (getLastIndex arr) = true <-> 2 <= length arr.
Proof.
  unfold toBool, getLastIndex.
  destruct arr as [|x [|y l]]; simpl; split; intros; try lia; try discriminate; reflexivity.
Qed.

Lemma toBool_getLastIndex_split (a : ascii) (sep s : string) :
  toBool (getLastIndex (split (String a sep) s)) = true <-> occurs (String a sep) s.
Proof. rewrite toBool_getLastIndex. apply split_occurs. Qed.

Lemma toBool_getLastIndex_split_false (a : ascii) (sep s : string) :
  toBool (getLastIndex (split (String a sep) s)) = false <-> ~ occurs (String a sep) s.
Proof.
  rewrite <- toBool_getLastIndex_split.
  destruct (toBool (getLastIndex (split (String a sep) s))); split; congruence.
Qed.

(** *** One-character separators *)

Lemma prefix_char (c x : ascii) (s : string) :
  String.prefix (String c "") (String x s) = Ascii.eqb c x.
Proof.
  simpl. destruct (ascii_dec c x) as [->|H].
  - rewrite Ascii.eqb_refl. now destruct s.
  - symmetry. now apply Ascii.eqb_neq.
Qed.

Lemma split_go_char_cons (c x : ascii) (s : string) :
  split_go (String c "") (String x s) 0
  = if Ascii.eqb c x then "" :: split_go (String c "") s 0
    else push_front x (split_go (String c "") s 0).
Proof. cbn [split_go]. now rewrite prefix_char. Qed.

Lemma split_char_absent (c : ascii) (b : string) :
  has_char c b = false -> split_go (String c "") b 0 = [b].
Proof.
  induction b as [|x b IH]; [reflexivity|].
  intros H. simpl in H. apply orb_false_iff in H as [Hx Hb].
  rewrite split_go_char_cons, Hx, (IH Hb). reflexivity.
Qed.

Lemma app_last_push_front (x : ascii) (segs : list string) (b : string) :
  segs <> [] ->
  app_last (push_front x segs) b = push_front x (app_last segs b).
Proof. destruct segs as [|s [|s' r]]; [contradiction | reflexivity | reflexivity]. Qed.

Lemma app_last_cons (seg : string) (segs : list string) (b : string) :
  segs <> [] -> app_last (seg :: segs) b = seg :: app_last segs b.
Proof. destruct segs; [contradiction | reflexivity]. Qed.

Lemma app_last_snoc (segs : list string) (seg b : string) :
  app_last (segs ++ [seg]) b = segs ++ [(seg ++ b)%string].
Proof.
  induction segs as [|s r IH]; [reflexivity|].
  simpl app. rewrite app_last_cons by (destruct r; discriminate).
  now rewrite IH.
Qed.

(** Text without the separator, appended, extends the last segment. *)
Lemma split_char_app (c : ascii) (a b : string) :
  has_char c b = false ->
  split_go (String c "") (a ++ b)%string 0
  = app_last (split_go (String c "") a 0) b.
Proof.
  intros Hb. induction a as [|x a IH]; simpl append.
  - now rewrite split_char_absent.
  - rewrite !split_go_char_cons, IH. destruct (Ascii.eqb c x).
    + now rewrite app_last_cons by apply split_go_nonempty.
    + now rewrite app_last_push_front by apply split_go_nonempty.
Qed.

Lemma split_char_snoc (c : ascii) (a : string) :
  split_go (String c "") (a ++ String c "")%string 0
  = split_go (String c "") a 0 ++ [""].
Proof.
  induction a as [|x a IH]; simpl append.
  - rewrite split_go_char_cons, Ascii.eqb_refl. reflexivity.
  - rewrite !split_go_char_cons, IH. destruct (Ascii.eqb c x); [reflexivity|].
    pose proof (split_go_nonempty (String c "") a 0).
    destruct (split_go (String c "") a 0); [contradiction | reflexivity].
Qed.

Lemma append_assoc (a b c : string) :
  ((a ++ b) ++ c = a ++ (b ++ c))%string.
Proof. induction a as [|x a IH]; simpl; [reflexivity | now rewrite IH]. Qed.

(** After the last separator comes the last segment. *)
Lemma split_char_sep (c : ascii) (a b : string) :
  has_char c b = false ->
  split_go (String c "") (a ++ String c b)%string 0
  = split_go (String c "") a 0 ++ [b].
Proof.
  intros Hb.
  change (String c b) with (String c "" ++ b)%string.
  rewrite <- append_assoc, (split_char_app c _ b Hb), split_char_snoc.
  now rewrite app_last_snoc.
Qed.

Lemma nth_last_snoc (segs : list string) (seg d : string) :
  nth (length (segs ++ [seg]) - 1) (segs ++ [seg]) d = seg.
Proof.
  rewrite length_app. simpl. replace (length segs + 1 - 1) with (length segs) by lia.
  rewrite app_nth2 by lia. now rewrite Nat.sub_diag.
Qed.

Lemma nth_last_app_last (segs : list string) (b d : string) :
  segs <> [] ->
  nth (length (app_last segs b) - 1) (app_last segs b) d
  = (nth (length segs - 1) segs d ++ b)%string.
Proof.
  intros H. destruct (exists_last H) as (l & x & ->).
  now rewrite app_last_snoc, !nth_last_snoc.
Qed.

Lemma getLastIndex_nonempty (arr : list string) :
  arr <> [] -> getLastIndex arr = length arr - 1.
Proof. destruct arr; [contradiction | reflexivity]. Qed.

Lemma index_last (arr : list string) :
  arr <> [] -> index arr (getLastIndex arr) = JStr (nth (length arr - 1) arr "").
Proof.
  intros H. rewrite getLastIndex_nonempty by exact H. unfold index.
  destruct (exists_last H) as (l & x & ->).
  rewrite nth_last_snoc, length_app. simpl.
  replace (length l + 1 - 1) with (length l) by lia.
  rewrite nth_error_app2 by lia. now rewrite Nat.sub_diag.
Qed.

(** ** Arrays and tables *)

(** Refute membership in a list of literals. *)
Ltac not_in_literals :=
  simpl; let H := fresh in
  intros H; repeat (destruct H as [H|H]; [discriminate|]); exact H.

Lemma includes_In (t : string) (arr : list string) :
  includes (JStr t) arr = true <-> In t arr.
Proof.
  unfold includes. rewrite existsb_exists. split.
  - intros (x & Hx & He). simpl in He. apply String.eqb_eq in He. now subst.
  - intros H. exists t. split; [exact H | simpl; apply String.eqb_refl].
Qed.

Lemma includes_not_In (t : string) (arr : list string) :
  includes (JStr t) arr = false <-> ~ In t arr.
Proof.
  rewrite <- includes_In. destruct (includes (JStr t) arr); split; congruence.
Qed.

Lemma synonyms_disjointb_sound (table : object (list string)) :
  synonyms_disjointb table = true -> synonym_sets_disjoint table.
Proof.
  unfold synonyms_disjointb, synonym_sets_disjoint.
  intros H k1 s1 k2 s2 tok H1 H2 Hk Ht1 Ht2.
  rewrite forallb_forall in H. specialize (H _ H1).
  rewrite forallb_forall in H. specialize (H _ H2). simpl in H.
  apply orb_true_iff in H as [H|H].
  - apply String.eqb_eq in H. contradiction.
  - unfold disjoint_entries in H. simpl in H.
    rewrite forallb_forall in H. specialize (H _ Ht1).
    apply negb_true_iff in H.
    assert (existsb (String.eqb tok) s2 = true) as E.
    { apply existsb_exists. exists tok. split; [exact Ht2 | apply String.eqb_refl]. }
    congruence.
Qed.

(** *** The extension of a path *)

Lemma fileTypeOf_extension (dir tok : string) :
  has_char "." tok = false -> has_char "/" tok = false ->
  Syntax0.fileTypeOf (dir ++ "." ++ tok)%string = tok.
Proof.
  intros Hdot Hslash. unfold Syntax0.fileTypeOf, split.
  rewrite (split_char_app "/" dir ("." ++ tok)%string)
    by (simpl; now rewrite Hslash).
  rewrite nth_last_app_last by apply split_go_nonempty.
  rewrite (split_char_sep "." _ tok Hdot).
  apply nth_last_snoc.
Qed.

(** The revisions built on [Utils] read the same extension. *)
Lemma extensionOf_fileTypeOf (path : string) :
  Engine.extensionOf (JStr path) = Ok (JStr (Syntax0.fileTypeOf path)).
Proof.
  unfold Engine.extensionOf, Syntax0.fileTypeOf, toArray at 1, bind at 1.
  rewrite index_last by apply split_go_nonempty.
  unfold toArray, bind.
  rewrite index_last by apply split_go_nonempty.
  reflexivity.
Qed.

(** *** The loop over the synonym table *)

Lemma getPrimaryFileType_loop_Ok (entries : object (list string)) (fileType : jsval) :
  Engine.getPrimaryFileType_loop entries fileType
  = Ok (Syntax0.getPrimaryFileType_loop entries fileType).
Proof.
  induction entries as [|[k syns] rest IH]; [reflexivity|].
  simpl. now destruct (includes fileType syns).
Qed.

Lemma getPrimaryFileType_loop_found
  (entries : object (list string)) (tok t : string) (syns : list string) :
  synonym_sets_disjoint entries ->
  In (t, syns) entries -> In tok syns ->
  Syntax0.getPrimaryFileType_loop entries (JStr tok) = JStr t.
Proof.
  induction entries as [|[k s] rest IH]; intros Hd Hin Htok; [contradiction|].
  simpl. destruct (includes (JStr tok) s) eqn:E.
  - apply includes_In in E.
    destruct (string_dec k t) as [->|Hne]; [reflexivity|].
    exfalso. apply (Hd k s t syns tok); simpl; auto.
  - destruct Hin as [Hin|Hin].
    + inversion Hin; subst. apply includes_In in Htok. congruence.
    + apply IH; [|exact Hin|exact Htok].
      intros k1 s1 k2 s2 x H1 H2. apply Hd; now right.
Qed.

Lemma getPrimaryFileType_loop_none (entries : object (list string)) (tok : string) :
  (forall t syns, In (t, syns) entries -> ~ In tok syns) ->
  Syntax0.getPrimaryFileType_loop entries (JStr tok) = JNull.
Proof.
  induction entries as [|[k s] rest IH]; intros H; [reflexivity|].
  simpl. assert (includes (JStr tok) s = false) as ->.
  { apply includes_not_In. apply (H k). now left. }
  apply IH. intros t syns Hin. apply (H t). now right.
Qed.

Lemma plain_tokens_sound (table : object (list string)) (t tok : string) (syns : list string) :
  plain_tokens table = true -> In (t, syns) table -> In tok syns ->
  has_char "." tok = false /\ has_char "/" tok = false.
Proof.
  unfold plain_tokens. intros H Hin Htok.
  rewrite forallb_forall in H. specialize (H _ Hin). simpl in H.
  rewrite forallb_forall in H. specialize (H _ Htok).
  apply andb_true_iff in H as [H1 H2].
  now rewrite negb_true_iff in H1, H2.
Qed.

(** *** The synonym tables of the revisions *)

Lemma synonyms0_disjoint : synonym_sets_disjoint Syntax0.VALID_FILE_TYPE_SYNONYMS.
Proof. apply synonyms_disjointb_sound. reflexivity. Qed.

Lemma synonyms1_disjoint : synonym_sets_disjoint Syntax1.VALID_FILE_TYPE_SYNONYMS.
Proof. apply synonyms_disjointb_sound. reflexivity. Qed.

Lemma synonyms3_disjoint : synonym_sets_disjoint Tables.LANG_FILE_TYPE_SYNONYMS.
Proof. apply synonyms_disjointb_sound. reflexivity. Qed.

(** ** The page classifier *)

(** C8: [isFileBlob] answers true exactly for a query string that is not
    empty and contains [;a=blob], in the first revision and in the ones
    built on [Utils]; it answers false for the empty string and true for
    [;a=blob;f=src/main.c]. *)
Theorem isFileBlob_iff_marker :
  (forall queryString : string,
     (Syntax0.isFileBlob queryString = true
      <-> queryString <> "" /\ occurs ";a=blob" queryString)
     /\ Syntax1.isFileBlob queryString = Ok (Syntax0.isFileBlob queryString))
  /\ Syntax0.isFileBlob "" = false
  /\ Syntax0.isFileBlob ";a=blob;f=src/main.c" = true
  /\ Syntax1.isFileBlob "" = Ok false
  /\ Syntax1.isFileBlob ";a=blob;f=src/main.c" = Ok true.
Proof.
  split; [|repeat split; reflexivity].
  intros q. split.
  - unfold Syntax0.isFileBlob.
    pose proof (split_occurs ";" "a=blob" q) as Ho.
    pose proof (split_nonempty ";" "a=blob" q) as Hn.
    destruct (length (split ";a=blob" q) - 1 =? 0)%nat eqn:E.
    + apply Nat.eqb_eq in E. split; [discriminate|].
      intros [_ H]. apply Ho in H. lia.
    + apply Nat.eqb_neq in E. split; [|reflexivity]. intros _.
      assert (occurs ";a=blob" q) as H by (apply Ho; lia).
      split; [|exact H]. intros ->. now apply occurs_empty in H.
  - unfold Syntax1.isFileBlob, Engine.isFileBlob, Syntax0.isFileBlob, toArray, bind.
    f_equal. unfold toBool, getLastIndex.
    pose proof (split_nonempty ";" "a=blob" q) as Hn. revert Hn.
    generalize (split ";a=blob" q). intros [|x [|y l]] Hn; simpl in *;
      [lia | reflexivity | reflexivity].
Qed.

(** ** The synonym table *)

(** C9: in the synonym table of the first revision, of the revision with
    [VALID_LANG_NAMES] and of the later revisions, no token stands in the
    arrays of two different keys. *)
Theorem synonym_tables_disjoint :
  synonym_sets_disjoint Syntax0.VALID_FILE_TYPE_SYNONYMS
  /\ synonym_sets_disjoint Syntax1.VALID_FILE_TYPE_SYNONYMS
  /\ synonym_sets_disjoint Tables.LANG_FILE_TYPE_SYNONYMS.
Proof.
  exact (conj synonyms0_disjoint (conj synonyms1_disjoint synonyms3_disjoint)).
Qed.

Lemma synonym_tables_disjoint_witness :
  ~ In "cpp" ["htm"; "dhtml"; "xhtml"] /\ ~ In "json" ["cgi"; "perl"].
Proof.
  split.
  - apply (proj1 synonym_tables_disjoint "c" ["cpp"; "h"] "html" _ "cpp");
      simpl; auto; discriminate.
  - apply (proj2 (proj2 synonym_tables_disjoint)
             "javascript" ["jse"; "json"] "perl" _ "json");
      simpl; auto 10; discriminate.
Defined.

Lemma synonym_loops_agree (entries : object (list string)) (fileType : jsval) :
  (Syntax0.isFileTypeSynonym_loop entries fileType = true
   <-> exists key, In key (keys entries)
                   /\ Syntax0.getPrimaryFileType_loop entries fileType = JStr key)
  /\ (Syntax0.isFileTypeSynonym_loop entries fileType = false
      <-> Syntax0.getPrimaryFileType_loop entries fileType = JNull).
Proof.
  induction entries as [|[k syns] rest [IHt IHf]]; simpl.
  - repeat split; try discriminate. intros (key & [] & _).
  - destruct (includes fileType syns).
    + repeat split; try discriminate. intros _. exists k. auto.
    + split; [|exact IHf]. rewrite IHt.
      split; intros (key & Hin & He); exists key; [auto|].
      destruct Hin as [<-|Hin]; [|auto].
      split; [|exact He].
      assert (Syntax0.isFileTypeSynonym_loop rest fileType = true) as Ht.
      { destruct (Syntax0.isFileTypeSynonym_loop rest fileType); [reflexivity|].
        destruct IHf as [IHf _]. specialize (IHf eq_refl). congruence. }
      apply IHt in Ht as (key' & Hin' & He'). congruence.
Qed.

(** C10: for every string token, [isFileTypeSynonym] answers true exactly
    when [getPrimaryFileType] returns a key of the synonym table, and
    false exactly when it returns [null]. *)
Theorem isFileTypeSynonym_iff_getPrimaryFileType (t : string) :
  (Syntax0.isFileTypeSynonym (JStr t) = true
   <-> exists key, In key (keys Syntax0.VALID_FILE_TYPE_SYNONYMS)
                   /\ Syntax0.getPrimaryFileType (JStr t) = JStr key)
  /\ (Syntax0.isFileTypeSynonym (JStr t) = false
      <-> Syntax0.getPrimaryFileType (JStr t) = JNull).
Proof. apply synonym_loops_agree. Qed.

(** ** The association table *)

(** C6: for every type [t], [getFileTypeAssocs] returns an array that
    starts with [t]; when [t] is a key of the association table the rest is
    the array declared under [t], in its order, and otherwise the array is
    [[t]] alone.  So it is in the first revision and in the last one (where
    the function is [getFileTypeAssocations]); [html] gives [html], [css],
    [js], [php] and [c] gives [c] alone. *)
Theorem getFileTypeAssocs_expansion (t : string) :
  ((exists rest, Syntax0.getFileTypeAssocs (JStr t) = JStr t :: rest)
   /\ (forall assocs, In (t, assocs) Syntax0.VALID_FILE_TYPE_ASSOCS ->
        Syntax0.getFileTypeAssocs (JStr t) = JStr t :: map JStr assocs)
   /\ (~ In t (keys Syntax0.VALID_FILE_TYPE_ASSOCS) ->
       Syntax0.getFileTypeAssocs (JStr t) = [JStr t]))
  /\ ((exists rest, Syntax3.getFileTypeAssocations (JStr t) = Ok (JStr t :: rest))
      /\ (forall assocs, In (t, assocs) Tables.FILE_TYPE_ASSOCIATIONS ->
           Syntax3.getFileTypeAssocations (JStr t) = Ok (JStr t :: map JStr assocs))
      /\ (~ In t (keys Tables.FILE_TYPE_ASSOCIATIONS) ->
          Syntax3.getFileTypeAssocations (JStr t) = Ok [JStr t]))
  /\ Syntax0.getFileTypeAssocs (JStr "html")
     = [JStr "html"; JStr "css"; JStr "js"; JStr "php"]
  /\ Syntax0.getFileTypeAssocs (JStr "c") = [JStr "c"]
  /\ Syntax3.getFileTypeAssocations (JStr "html")
     = Ok [JStr "html"; JStr "css"; JStr "js"; JStr "php"]
  /\ Syntax3.getFileTypeAssocations (JStr "c") = Ok [JStr "c"].
Proof.
  split; [|split; [|repeat split; reflexivity]].
  - unfold Syntax0.getFileTypeAssocs. repeat split.
    + destruct (includes (JStr t) (keys Syntax0.VALID_FILE_TYPE_ASSOCS));
        cbn [negb]; [|eexists; reflexivity].
      generalize (get Syntax0.VALID_FILE_TYPE_ASSOCS (propertyKey (JStr t))).
      intros [l|]; eexists; reflexivity.
    + intros assocs H. simpl in H.
      destruct H as [H|[H|[H|[]]]]; inversion H; subst; reflexivity.
    + intros H. apply includes_not_In in H. now rewrite H.
  - unfold Syntax3.getFileTypeAssocations, Engine.getFileTypeAssocs, inArray, getKeys, bind.
    repeat split.
    + destruct (includes (JStr t) (keys Tables.FILE_TYPE_ASSOCIATIONS));
        cbn [negb]; [|eexists; reflexivity].
      generalize (get Tables.FILE_TYPE_ASSOCIATIONS (propertyKey (JStr t))).
      intros [l|]; eexists; reflexivity.
    + intros assocs H. simpl in H.
      destruct H as [H|[H|[H|[H|[]]]]]; inversion H; subst; reflexivity.
    + intros H. apply includes_not_In in H. now rewrite H.
Qed.

Lemma getFileTypeAssocs_expansion_witness :
  Syntax0.getFileTypeAssocs (JStr "php")
  = [JStr "php"; JStr "css"; JStr "html"; JStr "js"]
  /\ Syntax3.getFileTypeAssocations (JStr "sh") = Ok [JStr "sh"].
Proof.
  split.
  - apply (proj1 (proj2 (proj1 (getFileTypeAssocs_expansion "php")))
             ["css"; "html"; "js"]).
    simpl. auto.
  - apply (proj2 (proj2 (proj1 (proj2 (getFileTypeAssocs_expansion "sh"))))).
    not_in_literals.
Defined.

(** ** The shebang *)

Lemma isExecutable_spec (fslocText : string) :
  Engine.isExecutable fslocText
  = Ok (toBool (getLastIndex (split "#!" fslocText))).
Proof. reflexivity. Qed.

Lemma isExecutable_true (fslocText : string) :
  Engine.isExecutable fslocText = Ok true <-> occurs "#!" fslocText.
Proof.
  rewrite isExecutable_spec, <- toBool_getLastIndex_split.
  split; [intros [= H]; exact H | intros ->; reflexivity].
Qed.

Lemma isExecutable_false (fslocText : string) :
  Engine.isExecutable fslocText = Ok false <-> ~ occurs "#!" fslocText.
Proof.
  rewrite isExecutable_spec, <- toBool_getLastIndex_split_false.
  split; [intros [= H]; exact H | intros ->; reflexivity].
Qed.

(** Without the marker there is no second element to take the path from,
    and [toArray] refuses [undefined]. *)
Lemma getExecutableType_without_marker (names : result haystack) (fslocText : string) :
  ~ occurs "#!" fslocText ->
  Engine.getExecutableType names fslocText = Throw TypeError.
Proof.
  intros H. unfold Engine.getExecutableType, toArray at 1, bind at 1.
  assert (index (split "#!" fslocText) 1 = JUndefined) as ->; [|reflexivity].
  pose proof (split_occurs "#" "!" fslocText) as Ho.
  unfold index. destruct (split "#!" fslocText) as [|x [|y l]]; try reflexivity.
  exfalso. apply H, Ho. simpl. lia.
Qed.

(** The type of the extension is kept when the first line has no marker. *)
Lemma finalFileType_without_marker
  (primary : haystack) (synonyms : object (list string)) (names : result haystack)
  (exec : object string) (fileType : jsval) (fslocText : string) :
  ~ occurs "#!" fslocText ->
  Engine.finalFileType primary synonyms names exec fileType fslocText
  = Engine.primaryOf primary synonyms fileType.
Proof.
  intros H. unfold Engine.finalFileType.
  apply isExecutable_false in H. now rewrite H.
Qed.





(** ** End to end *)

(** C7: for the query string [;a=blob;f=lib/app.php5] the languages
    handed to the highlighter are [php], [css], [html], [js], in this
    order: in the first revision, which reads no first line, and in the
    revisions with shebang detection for every first line without [#!]. *)
Theorem php5_end_to_end :
  Syntax0.onReady ";a=blob;f=lib/app.php5"
  = Configured " " [JStr "php"; JStr "css"; JStr "html"; JStr "js"]
  /\ forall fslocText : string,
       ~ occurs "#!" fslocText ->
       Syntax1.onReady ";a=blob;f=lib/app.php5" fslocText
       = Ok (Configured "  " [JStr "php"; JStr "css"; JStr "html"; JStr "js"])
       /\ Syntax3.onReady ";a=blob;f=lib/app.php5" fslocText
          = Ok (Configured "  " [JStr "php"; JStr "css"; JStr "html"; JStr "js"]).
Proof.
  split; [reflexivity|].
  intros fslocText H. split.
  - unfold Syntax1.onReady, Engine.onReady, Engine.highlightSyntax.
    change (Engine.isFileBlob ";a=blob;f=lib/app.php5") with (Ok true).
    change (Engine.fileTypeOf ";a=blob;f=lib/app.php5") with (Ok (Some (JStr "php5"))).
    cbn [bind truthy andb negb].
    rewrite (finalFileType_without_marker _ _ _ _ _ _ H).
    reflexivity.
  - unfold Syntax3.onReady, Engine.onReady, Engine.highlightSyntax.
    change (Engine.isFileBlob ";a=blob;f=lib/app.php5") with (Ok true).
    change (Engine.fileTypeOf ";a=blob;f=lib/app.php5") with (Ok (Some (JStr "php5"))).
    cbn [bind truthy andb negb].
    rewrite (finalFileType_without_marker _ _ _ _ _ _ H).
    reflexivity.
Qed.

Lemma php5_end_to_end_witness :
  Syntax1.onReady ";a=blob;f=lib/app.php5" "   1 <?php"
  = Ok (Configured "  " [JStr "php"; JStr "css"; JStr "html"; JStr "js"]).
Proof.
  apply (proj2 php5_end_to_end "   1 <?php").
  apply toBool_getLastIndex_split_false. reflexivity.
Defined.

(** ** The unrecognised interpreter *)

(** C1 fails on the code.  For [;a=blob;f=main.c] and the first line
    [#!/usr/bin/zsh] the extension gives [c] and [getExecutableType]
    returns [null]; the revision with [VALID_LANG_NAMES] then reads the
    table of executables under [null] and hands [undefined] to
    [getFileTypeAssocs], and the last revision throws. *)
Theorem unrecognised_interpreter_loses_extension :
  occurs "#!" "#!/usr/bin/zsh"
  /\ Syntax1.getExecutableType "#!/usr/bin/zsh" = Ok JNull
  /\ Syntax1.fileTypeOf ";a=blob;f=main.c" = Ok (Some (JStr "c"))
  /\ Syntax1.primaryOf (JStr "c") = Ok (JStr "c")
  /\ Syntax1.finalFileType (JStr "c") "#!/usr/bin/zsh" = Ok JUndefined
  /\ Syntax1.onReady ";a=blob;f=main.c" "#!/usr/bin/zsh"
     = Ok (Configured "  " [JUndefined])
  /\ Syntax3.fileTypeOf ";a=blob;f=main.c" = Ok (Some (JStr "c"))
  /\ Syntax3.primaryOf (JStr "c") = Ok (JStr "c")
  /\ Syntax3.onReady ";a=blob;f=main.c" "#!/usr/bin/zsh" = Throw ReferenceError.
Proof.
  split; [now exists "", "/usr/bin/zsh"|].
  repeat split; reflexivity.
Qed.

(** ** Exceptions *)

(** C5 fails on the code.  For [;a=blob;f=src/main.c] with the first line
    [#!/bin/sh] the revision that hands [LANG_PRIMARY_FILE_TYPES] itself to
    [inArray] throws a [TypeError] (it does so for an empty first line
    too), and the last revision throws a [ReferenceError] at the read of
    [LANG_NAMES]. *)
Theorem pipeline_throws :
  Syntax2.onReady ";a=blob;f=src/main.c" "#!/bin/sh" = Throw TypeError
  /\ Syntax2.onReady ";a=blob;f=src/main.c" "" = Throw TypeError
  /\ Syntax3.getExecutableType "#!/bin/sh" = Throw ReferenceError
  /\ Syntax3.onReady ";a=blob;f=src/main.c" "#!/bin/sh" = Throw ReferenceError.
Proof. repeat split; reflexivity. Qed.

(** ** The extension *)

(** C4, as the code has it, in the first revision and in the last one:
    a token that is a primary file type is kept; any other token that
    stands in the synonym array of a key [t] gives [t], and so does every
    path that ends in a dot and such a token; a token that is neither gives
    [null]. *)
Theorem extension_resolution (tok : string) :
  ((In tok Syntax0.VALID_FILE_TYPES -> Syntax0.primaryOf tok = JStr tok)
   /\ (forall t syns,
        ~ In tok Syntax0.VALID_FILE_TYPES ->
        In (t, syns) Syntax0.VALID_FILE_TYPE_SYNONYMS -> In tok syns ->
        Syntax0.primaryOf tok = JStr t
        /\ forall dir, Syntax0.primaryOf (Syntax0.fileTypeOf (dir ++ "." ++ tok)) = JStr t)
   /\ (~ In tok Syntax0.VALID_FILE_TYPES ->
       (forall t syns, In (t, syns) Syntax0.VALID_FILE_TYPE_SYNONYMS -> ~ In tok syns) ->
       Syntax0.primaryOf tok = JNull))
  /\ ((In tok (getKeys Tables.LANG_PRIMARY_FILE_TYPES) ->
       Syntax3.primaryOf (JStr tok) = Ok (JStr tok))
      /\ (forall t syns,
           ~ In tok (getKeys Tables.LANG_PRIMARY_FILE_TYPES) ->
           In (t, syns) Tables.LANG_FILE_TYPE_SYNONYMS -> In tok syns ->
           Syntax3.primaryOf (JStr tok) = Ok (JStr t)
           /\ forall dir fileType,
                Syntax3.extensionOf (JStr (dir ++ "." ++ tok)) = Ok fileType ->
                Syntax3.primaryOf fileType = Ok (JStr t))
      /\ (~ In tok (getKeys Tables.LANG_PRIMARY_FILE_TYPES) ->
          (forall t syns, In (t, syns) Tables.LANG_FILE_TYPE_SYNONYMS -> ~ In tok syns) ->
          Syntax3.primaryOf (JStr tok) = Ok JNull)).
Proof.
  split; [unfold Syntax0.primaryOf, Syntax0.getPrimaryFileType
         |unfold Syntax3.primaryOf, Syntax3.extensionOf, Engine.primaryOf,
            Engine.getPrimaryFileType, inArray, bind];
    repeat split.
  - intros H. apply includes_In in H. now rewrite H.
  - apply includes_not_In in H. rewrite H. cbn [negb].
    apply (getPrimaryFileType_loop_found _ tok t syns); auto.
    apply synonyms0_disjoint.
  - intros dir.
    destruct (plain_tokens_sound Syntax0.VALID_FILE_TYPE_SYNONYMS t tok syns)
      as [Hdot Hslash]; auto.
    rewrite (fileTypeOf_extension dir tok Hdot Hslash).
    apply includes_not_In in H. rewrite H. cbn [negb].
    apply (getPrimaryFileType_loop_found _ tok t syns); auto.
    apply synonyms0_disjoint.
  - intros H Hnone. apply includes_not_In in H. rewrite H. cbn [negb].
    now apply getPrimaryFileType_loop_none.
  - intros H. apply includes_In in H. now rewrite H.
  - apply includes_not_In in H. rewrite H. cbn [negb].
    rewrite getPrimaryFileType_loop_Ok. f_equal.
    apply (getPrimaryFileType_loop_found _ tok t syns); auto.
    apply synonyms3_disjoint.
  - intros dir fileType.
    destruct (plain_tokens_sound Tables.LANG_FILE_TYPE_SYNONYMS t tok syns)
      as [Hdot Hslash]; auto.
    rewrite extensionOf_fileTypeOf, (fileTypeOf_extension dir tok Hdot Hslash).
    intros [= <-].
    apply includes_not_In in H. rewrite H. cbn [negb].
    rewrite getPrimaryFileType_loop_Ok. f_equal.
    apply (getPrimaryFileType_loop_found _ tok t syns); auto.
    apply synonyms3_disjoint.
  - intros H Hnone. apply includes_not_In in H. rewrite H. cbn [negb].
    rewrite getPrimaryFileType_loop_Ok. f_equal.
    now apply getPrimaryFileType_loop_none.
Qed.

Lemma extension_resolution_witness :
  Syntax0.primaryOf "php5" = JStr "php"
  /\ Syntax0.primaryOf (Syntax0.fileTypeOf "lib/app.php5") = JStr "php"
  /\ Syntax3.primaryOf (JStr "json") = Ok (JStr "javascript").
Proof.
  assert (~ In "php5" Syntax0.VALID_FILE_TYPES) as H0 by not_in_literals.
  assert (~ In "json" (getKeys Tables.LANG_PRIMARY_FILE_TYPES)) as H3
    by not_in_literals.
  destruct (proj1 (proj2 (proj1 (extension_resolution "php5")))
              "php" ["php5"; "phtml"] H0) as [Ha Hb]; [simpl; auto 10 | simpl; auto |].
  destruct (proj1 (proj2 (proj2 (extension_resolution "json")))
              "javascript" ["jse"; "json"] H3) as [Hc _]; [simpl; auto 10 | simpl; auto |].
  split; [exact Ha | split; [exact (Hb "lib/app") | exact Hc]].
Defined.

(** C4 as stated fails in the first revision: [json] stands in the synonym
    array of [js], but it is a primary file type itself, so a path that ends
    in [.json] gives [json] and not [js]. *)
Lemma json_is_not_resolved_to_js :
  In ("js", ["jse"; "json"]) Syntax0.VALID_FILE_TYPE_SYNONYMS
  /\ In "json" ["jse"; "json"]
  /\ Syntax0.fileTypeOf "data.json" = "json"
  /\ Syntax0.primaryOf "json" = JStr "json"
  /\ Syntax0.primaryOf (Syntax0.fileTypeOf "data.json") <> JStr "js"
  /\ Syntax0.onReady ";a=blob;f=data.json" = Configured " " [JStr "json"; JStr "js"].
Proof.
  repeat split; simpl; auto; discriminate.
Qed.

(** *** Helpers on the shebang *)

(** [getExecutableType] returns only where the first line has the marker. *)
Lemma getExecutableType_Ok_occurs (names : result haystack) (fslocText : string) (v : jsval) :
  Engine.getExecutableType names fslocText = Ok v -> occurs "#!" fslocText.
Proof.
  intros H.
  destruct (toBool (getLastIndex (split "#!" fslocText))) eqn:E.
  - now apply toBool_getLastIndex_split in E.
  - apply toBool_getLastIndex_split_false in E.
    rewrite (getExecutableType_without_marker names fslocText E) in H. discriminate.
Qed.

(** A value under which the table of executables has an entry is a
    non-empty string. *)
Lemma executable_key_truthy (v : jsval) (s : string) :
  get Syntax1.VALID_LANG_ASSOC_FILE_TYPES (propertyKey v) = Some s -> truthy v = true.
Proof.
  destruct v as [| |[|c x]]; try discriminate. reflexivity.
Qed.

Lemma getFileTypeAssocs_Ok (assocs : object (list string)) (fileType : jsval) :
  exists languages, Engine.getFileTypeAssocs assocs fileType = Ok languages.
Proof.
  unfold Engine.getFileTypeAssocs, inArray, bind.
  destruct (negb (includes fileType (getKeys assocs))); eexists; reflexivity.
Qed.

(** *** Where the later revisions return and where they throw *)

Lemma index_second (arr : list string) :
  toBool (getLastIndex arr) = true -> exists s, index arr 1 = JStr s.
Proof.
  destruct arr as [|x [|y l]]; try discriminate. intros _. now exists y.
Qed.

Lemma index_first (arr : list string) :
  arr <> [] -> exists s, index arr 0 = JStr s.
Proof. destruct arr as [|x l]; [contradiction|]. intros _. now exists x. Qed.

(** The file type read off the query string: none without [;f=], a string
    with it. *)
Lemma fileTypeOf_cases (queryString : string) :
  (~ occurs ";f=" queryString /\ Engine.fileTypeOf queryString = Ok None)
  \/ (occurs ";f=" queryString
      /\ exists fileType, Engine.fileTypeOf queryString = Ok (Some (JStr fileType))).
Proof.
  unfold Engine.fileTypeOf, Engine.pathOf.
  change (toArray (JStr queryString) (SepString ";f="))
    with (Ok (split ";f=" queryString)).
  cbn [bind].
  destruct (toBool (getLastIndex (split ";f=" queryString))) eqn:E; cbn [negb bind].
  - right. split; [now apply toBool_getLastIndex_split in E|].
    destruct (index_second _ E) as [y ->].
    change (toArray (JStr y) (SepString ";")) with (Ok (split ";" y)).
    cbn [bind].
    destruct (index_first (split ";" y)) as [z ->]; [apply split_go_nonempty|].
    rewrite extensionOf_fileTypeOf. cbn [bind]. eauto.
  - left. split; [now apply toBool_getLastIndex_split_false in E | reflexivity].
Qed.

(** The steps of [getExecutableType] up to the search of the names. *)
Lemma getExecutableType_steps (names : result haystack) (fslocText : string) :
  occurs "#!" fslocText ->
  exists (executable : string) (flagOptions : list string),
    Engine.getExecutableType names fslocText
    = (let hasOptions := toBool (getLastIndex flagOptions) in
       plain <- andThen (negb hasOptions)
                  (names <- names ;; inArray (JStr executable) names) ;;
       if plain then Ok (JStr executable)
       else
         direct <- andThen hasOptions
                     (names <- names ;; inArray (index flagOptions 0) names) ;;
         if direct then Ok (index flagOptions 0)
         else
           indirect <- andThen hasOptions
                         (names <- names ;; inArray (index flagOptions 1) names) ;;
           if indirect then Ok (index flagOptions 1)
           else Ok JNull).
Proof.
  intros H. apply toBool_getLastIndex_split in H.
  unfold Engine.getExecutableType.
  change (toArray (JStr fslocText) (SepString "#!")) with (Ok (split "#!" fslocText)).
  cbn [bind].
  destruct (index_second _ H) as [y ->].
  change (toArray (JStr y) (SepString "/")) with (Ok (split "/" y)).
  cbn [bind].
  rewrite index_last by apply split_go_nonempty.
  eexists. eexists. reflexivity.
Qed.

(** With the names bound to an array, [getExecutableType] returns on every
    first line that has the marker. *)
Lemma getExecutableType_total (names : list string) (fslocText : string) :
  occurs "#!" fslocText ->
  exists v, Engine.getExecutableType (Ok (HArray names)) fslocText = Ok v.
Proof.
  intros H.
  destruct (getExecutableType_steps (Ok (HArray names)) fslocText H)
    as (executable & flagOptions & ->).
  unfold andThen, inArray. cbn [bind].
  destruct (toBool (getLastIndex flagOptions)); cbn [negb bind].
  - destruct (includes (index flagOptions 0) names); [eauto|].
    destruct (includes (index flagOptions 1) names); eauto.
  - destruct (includes (JStr executable) names); eauto.
Qed.

(** With the names unbound, it throws on every such line. *)
Lemma getExecutableType_unbound (fslocText : string) :
  occurs "#!" fslocText ->
  Engine.getExecutableType (Throw ReferenceError) fslocText = Throw ReferenceError.
Proof.
  intros H.
  destruct (getExecutableType_steps (Throw ReferenceError) fslocText H)
    as (executable & flagOptions & ->).
  unfold andThen. cbn [bind].
  destruct (toBool (getLastIndex flagOptions)); reflexivity.
Qed.

(** The revision with [VALID_LANG_NAMES] never throws. *)
Lemma Syntax1_onReady_total (queryString fslocText : string) :
  exists o, Syntax1.onReady queryString fslocText = Ok o.
Proof.
  unfold Syntax1.onReady, Engine.onReady, Engine.isFileBlob.
  change (toArray (JStr queryString) (SepString ";a=blob"))
    with (Ok (split ";a=blob" queryString)).
  cbn [bind].
  destruct (negb (truthy (JStr queryString)
                  && toBool (getLastIndex (split ";a=blob" queryString))));
    [eauto|].
  unfold Engine.highlightSyntax.
  destruct (fileTypeOf_cases queryString) as [[_ ->]|[_ [fileType ->]]];
    cbn [bind]; [eauto|].
  assert (exists v, Engine.finalFileType (HArray Syntax1.VALID_FILE_TYPES)
            Syntax1.VALID_FILE_TYPE_SYNONYMS (Ok (HArray Syntax1.VALID_LANG_NAMES))
            Syntax1.VALID_LANG_ASSOC_FILE_TYPES (JStr fileType) fslocText = Ok v)
    as [final Hfinal].
  { unfold Engine.finalFileType, Engine.executableFileType, Engine.primaryOf,
      Engine.getPrimaryFileType, inArray.
    rewrite isExecutable_spec.
    destruct (toBool (getLastIndex (split "#!" fslocText))) eqn:E; cbn [bind].
    - apply toBool_getLastIndex_split in E.
      destruct (getExecutableType_total Syntax1.VALID_LANG_NAMES fslocText E) as [v ->].
      cbn [bind]. eauto.
    - rewrite getPrimaryFileType_loop_Ok.
      destruct (negb (includes (JStr fileType) Syntax1.VALID_FILE_TYPES)); eauto. }
  rewrite Hfinal.
  destruct (getFileTypeAssocs_Ok Syntax1.VALID_FILE_TYPE_ASSOCS final) as [languages Hl].
  unfold Engine.isFileTypeValid, inArray. cbn [bind].
  destruct (includes (JStr fileType) Syntax1.VALID_FILE_TYPES);
    [cbn [bind negb]; rewrite Hl; cbn [bind]; eauto|].
  destruct (Engine.isFileTypeSynonym _ _);
    [cbn [bind negb]; rewrite Hl; cbn [bind]; eauto|].
  rewrite isExecutable_spec.
  destruct (toBool (getLastIndex (split "#!" fslocText))) eqn:E; cbn [bind].
  - apply toBool_getLastIndex_split in E.
    destruct (getExecutableType_total Syntax1.VALID_LANG_NAMES fslocText E) as [v ->].
    cbn [bind]. destruct (negb (truthy v)); [eauto|].
    rewrite Hl. cbn [bind]. eauto.
  - cbn [negb]. eauto.
Qed.

(** The revision that hands the object to [inArray] throws on every query
    string that names a file. *)
Lemma Syntax2_highlightSyntax_throws (queryString fslocText : string) :
  occurs ";f=" queryString ->
  Syntax2.highlightSyntax queryString fslocText = Throw TypeError.
Proof.
  intros H. unfold Syntax2.highlightSyntax, Engine.highlightSyntax.
  destruct (fileTypeOf_cases queryString) as [[Hn _]|[_ [fileType ->]]];
    [contradiction | reflexivity].
Qed.

(** The last revision throws on every such query string when the first
    line has the marker. *)
Lemma Syntax3_highlightSyntax_throws (queryString fslocText : string) :
  occurs ";f=" queryString -> occurs "#!" fslocText ->
  Syntax3.highlightSyntax queryString fslocText = Throw ReferenceError.
Proof.
  intros H Hm. unfold Syntax3.highlightSyntax, Engine.highlightSyntax.
  destruct (fileTypeOf_cases queryString) as [[Hn _]|[_ [fileType ->]]];
    [contradiction|].
  pose proof (getExecutableType_unbound fslocText Hm) as Ht.
  apply isExecutable_true in Hm.
  cbn [bind]. unfold Engine.isFileTypeValid, Engine.finalFileType,
    Engine.executableFileType, inArray. cbn [bind].
  unfold Tables.LANG_NAMES.
  destruct (includes (JStr fileType) _);
    [cbn [bind negb]; rewrite Hm; cbn [bind]; rewrite Ht; reflexivity|].
  destruct (Engine.isFileTypeSynonym _ _);
    [cbn [bind negb]; rewrite Hm; cbn [bind]; rewrite Ht; reflexivity|].
  rewrite Hm. cbn [bind]. rewrite Ht. reflexivity.
Qed.

(** An interpreter that is not recognised leaves [undefined], whatever
    the extension gave. *)
Lemma finalFileType_unrecognised (fileType : jsval) (fslocText : string) :
  Syntax1.getExecutableType fslocText = Ok JNull ->
  Syntax1.finalFileType fileType fslocText = Ok JUndefined.
Proof.
  intros H.
  pose proof (getExecutableType_Ok_occurs _ _ _ H) as Hm.
  apply isExecutable_true in Hm.
  unfold Syntax1.finalFileType, Engine.finalFileType, Engine.executableFileType.
  rewrite Hm. cbn [bind]. unfold Syntax1.getExecutableType in H. rewrite H.
  reflexivity.
Qed.

(** ** Shebang against extension *)

(** C2: in the revision with [VALID_LANG_NAMES], whenever the first line
    resolves through [getExecutableType] and the table of executables to a
    type [s], the file type handed on is [s], whatever the extension of the
    path gives, and the highlighter is configured with the expansion of [s].
    For the path [foo.txt] and the first line [#!/bin/bash] that is the
    expansion of [sh], the type of [bash]. *)
Theorem shebang_overrides_extension :
  (forall (queryString fslocText : string) (fileType : jsval) (s : string),
     Syntax1.fileTypeOf queryString = Ok (Some fileType) ->
     Syntax1.executableFileType fslocText = Ok (JStr s) ->
     Syntax1.finalFileType fileType fslocText = Ok (JStr s)
     /\ exists languages,
          Syntax1.getFileTypeAssocs (JStr s) = Ok languages
          /\ Syntax1.highlightSyntax queryString fslocText
             = Ok (Configured "  " languages))
  /\ Syntax1.fileTypeOf ";a=blob;f=foo.txt" = Ok (Some (JStr "txt"))
  /\ Syntax1.executableFileType "#!/bin/bash" = Ok (JStr "sh")
  /\ Syntax1.getFileTypeAssocs (JStr "sh") = Ok [JStr "sh"]
  /\ Syntax1.onReady ";a=blob;f=foo.txt" "#!/bin/bash" = Ok (Configured "  " [JStr "sh"]).
Proof.
  split; [|repeat split; reflexivity].
  intros q text fileType s Hq Hs.
  unfold Syntax1.executableFileType, Engine.executableFileType in Hs.
  destruct (Engine.getExecutableType (Ok (HArray Syntax1.VALID_LANG_NAMES)) text)
    as [v|e] eqn:Hv; [|discriminate].
  cbn [bind] in Hs.
  assert (truthy v = true) as Htruthy.
  { destruct (get Syntax1.VALID_LANG_ASSOC_FILE_TYPES (propertyKey v)) eqn:G;
      [|discriminate].
    now apply (executable_key_truthy v s0). }
  assert (Engine.isExecutable text = Ok true) as Hexec.
  { apply isExecutable_true. exact (getExecutableType_Ok_occurs _ _ v Hv). }
  assert (Syntax1.finalFileType fileType text = Ok (JStr s)) as Hfinal.
  { unfold Syntax1.finalFileType, Engine.finalFileType, Engine.executableFileType.
    rewrite Hexec. cbn [bind]. rewrite Hv. exact Hs. }
  split; [exact Hfinal|].
  destruct (getFileTypeAssocs_Ok Syntax1.VALID_FILE_TYPE_ASSOCS (JStr s)) as [languages Hl].
  exists languages. split; [exact Hl|].
  unfold Syntax1.highlightSyntax, Engine.highlightSyntax.
  unfold Syntax1.fileTypeOf in Hq. rewrite Hq. cbn [bind].
  assert (Engine.isFileTypeValid (HArray Syntax1.VALID_FILE_TYPES)
            Syntax1.VALID_FILE_TYPE_SYNONYMS (Ok (HArray Syntax1.VALID_LANG_NAMES))
            fileType text = Ok true) as ->.
  { unfold Engine.isFileTypeValid, inArray. cbn [bind].
    destruct (includes fileType Syntax1.VALID_FILE_TYPES); [reflexivity|].
    destruct (Engine.isFileTypeSynonym Syntax1.VALID_FILE_TYPE_SYNONYMS fileType);
      [reflexivity|].
    rewrite Hexec. cbn [bind]. rewrite Hv. cbn [bind]. now rewrite Htruthy. }
  cbn [bind negb].
  unfold Syntax1.finalFileType in Hfinal. rewrite Hfinal. cbn [bind].
  rewrite Hl. reflexivity.
Qed.

Lemma shebang_overrides_extension_witness :
  Syntax1.finalFileType (JStr "c") "#!/usr/bin/perl" = Ok (JStr "pl")
  /\ exists languages,
       Syntax1.getFileTypeAssocs (JStr "pl") = Ok languages
       /\ Syntax1.highlightSyntax ";a=blob;f=src/main.c" "#!/usr/bin/perl"
          = Ok (Configured "  " languages).
Proof.
  apply (proj1 shebang_overrides_extension
           ";a=blob;f=src/main.c" "#!/usr/bin/perl" (JStr "c") "pl");
    reflexivity.
Defined.

(** * Further properties *)

(** ** [Utils.toArray] and [Utils.getLastIndex] *)

(** The code units of a matched separator are passed over. *)
Lemma split_go_skip (sep u r : string) :
  split_go sep (u ++ r)%string (String.length u) = split_go sep r 0.
Proof. induction u as [|c u IH]; [reflexivity | exact IH]. Qed.

Lemma concat_push_front (sep : string) (c : ascii) (segs : list string) :
  segs <> [] ->
  String.concat sep (push_front c segs) = String c (String.concat sep segs).
Proof.
  destruct segs as [|x [|y l]]; [contradiction | reflexivity | reflexivity].
Qed.

Lemma concat_cons_nonempty (sep x : string) (segs : list string) :
  segs <> [] ->
  String.concat sep (x :: segs) = (x ++ sep ++ String.concat sep segs)%string.
Proof. destruct segs; [contradiction | reflexivity]. Qed.

Lemma length_append (a b : string) :
  String.length (a ++ b)%string = String.length a + String.length b.
Proof. induction a as [|c a IH]; simpl; [reflexivity | now rewrite IH]. Qed.

Lemma split_go_concat (sep : string) :
  sep <> "" -> forall (n : nat) (s : string),
  String.length s <= n -> String.concat sep (split_go sep s 0) = s.
Proof.
  intros Hsep n. induction n as [|n IH]; intros s Hn.
  - destruct s; [reflexivity | simpl in Hn; lia].
  - destruct s as [|c s]; [reflexivity|]. cbn [split_go].
    destruct (String.prefix sep (String c s)) eqn:Hp.
    + apply prefix_spec in Hp as [r Hr].
      destruct sep as [|a sep']; [contradiction|].
      simpl in Hr. injection Hr as -> ->.
      replace (String.length (String a sep') - 1) with (String.length sep')
        by (simpl; lia).
      rewrite split_go_skip.
      rewrite concat_cons_nonempty by apply split_go_nonempty.
      rewrite IH; [reflexivity|].
      simpl in Hn. rewrite length_append in Hn. lia.
    + rewrite concat_push_front by apply split_go_nonempty.
      rewrite IH; [reflexivity | simpl in Hn; lia].
Qed.

Lemma concat_chars (s : string) :
  String.concat "" (map (fun c => String c "") (list_ascii_of_string s)) = s.
Proof.
  induction s as [|c s IH]; [reflexivity|].
  simpl. destruct s as [|d s]; [reflexivity|].
  simpl in *. now rewrite IH.
Qed.

Lemma split_concat (sep s : string) : String.concat sep (split sep s) = s.
Proof.
  destruct sep as [|a sep]; [apply concat_chars|].
  apply (split_go_concat (String a sep) ltac:(discriminate) (String.length s)). lia.
Qed.

(** X1: [toArray] loses nothing of a string: for every separator string,
    the segments joined again with the separator are the string that was
    split. *)
Theorem toArray_concat (s sep : string) :
  exists segs : list string,
    toArray (JStr s) (SepString sep) = Ok segs
    /\ String.concat sep segs = s.
Proof. exists (split sep s). split; [reflexivity | apply split_concat]. Qed.

Lemma split_class_nonempty (p : ascii -> bool) (s : string) : split_class p s <> [].
Proof.
  induction s as [|c s IH]; simpl; [discriminate|].
  destruct (p c); [discriminate|].
  destruct (split_class p s); [contradiction | discriminate].
Qed.

(** X2: [toArray] throws a [TypeError] on [undefined] and on [null]; on a
    string it returns, and the array is empty only when both the string and
    the separator string are empty: with a non-empty separator or with a
    regular expression of one code unit there is always a first element. *)
Theorem toArray_edges (sep : separator) :
  toArray JUndefined sep = Throw TypeError
  /\ toArray JNull sep = Throw TypeError
  /\ forall s : string,
       exists segs, toArray (JStr s) sep = Ok segs
                    /\ (segs = [] <-> s = "" /\ sep = SepString "").
Proof.
  split; [reflexivity|]. split; [reflexivity|].
  intros s. eexists. split; [reflexivity|].
  destruct sep as [[|a d]|p].
  - destruct s as [|c s]; simpl; split; auto.
    + discriminate.
    + intros [H _]. discriminate.
  - split.
    + intros H. now apply split_go_nonempty in H.
    + intros [_ H]. discriminate.
  - split.
    + intros H. now apply split_class_nonempty in H.
    + intros [_ H]. discriminate.
Qed.

(** X3: [arr[getLastIndex(arr)]] is the last element of every array that
    has one; on the empty array [getLastIndex] answers 0 like on an array
    of one element, and the read gives [undefined]. *)
Theorem getLastIndex_last (arr : list string) :
  (arr = [] -> getLastIndex arr = 0 /\ index arr (getLastIndex arr) = JUndefined)
  /\ (arr <> [] ->
      getLastIndex arr = length arr - 1
      /\ getLastIndex arr < length arr
      /\ index arr (getLastIndex arr) = JStr (last arr ""))
  /\ (getLastIndex arr = 0 <-> length arr <= 1).
Proof.
  split; [intros ->; split; reflexivity|]. split.
  - intros H. rewrite index_last by exact H.
    rewrite getLastIndex_nonempty by exact H.
    destruct (exists_last H) as (l & x & ->).
    rewrite nth_last_snoc, last_last, length_app. simpl. repeat split; lia.
  - destruct arr as [|x [|y l]]; simpl; split; intros; try lia; try reflexivity.
    unfold getLastIndex in H. simpl in H. lia.
Qed.

Lemma getLastIndex_last_witness :
  getLastIndex ["usr"; "bin"; "perl"] = 2
  /\ getLastIndex ["usr"; "bin"; "perl"] < 3
  /\ index ["usr"; "bin"; "perl"] (getLastIndex ["usr"; "bin"; "perl"]) = JStr "perl".
Proof.
  apply (proj1 (proj2 (getLastIndex_last ["usr"; "bin"; "perl"]))). discriminate.
Defined.

(** ** The gates of the page handler *)

Lemma Engine_onReady_gate
  (primary : haystack) (synonyms assocs : object (list string))
  (names : result haystack) (exec : object string) (tab : string)
  (queryString fslocText : string) :
  ~ occurs ";a=blob" queryString \/ ~ occurs ";f=" queryString ->
  Engine.onReady primary synonyms assocs names exec tab queryString fslocText
  = Ok Returned.
Proof.
  intros H. unfold Engine.onReady, Engine.isFileBlob.
  change (toArray (JStr queryString) (SepString ";a=blob"))
    with (Ok (split ";a=blob" queryString)).
  cbn [bind].
  destruct (toBool (getLastIndex (split ";a=blob" queryString))) eqn:E.
  - apply toBool_getLastIndex_split in E.
    destruct H as [H|H]; [contradiction|].
    destruct (truthy (JStr queryString)); [|reflexivity]. cbn [andb negb].
    unfold Engine.highlightSyntax.
    destruct (fileTypeOf_cases queryString) as [[_ ->]|[Ho _]];
      [reflexivity | contradiction].
  - now rewrite andb_false_r.
Qed.

Lemma split_single (a : ascii) (sep s : string) :
  ~ occurs (String a sep) s -> (length (split (String a sep) s) - 1 =? 0)%nat = true.
Proof.
  intros H. apply Nat.eqb_eq.
  pose proof (split_occurs a sep s) as Ho.
  destruct (split (String a sep) s) as [|x [|y l]]; try reflexivity.
  exfalso. apply H, Ho. simpl. lia.
Qed.

(** X4: a query string without [;a=blob] or without [;f=] makes every
    revision return without a call of the highlighter and without an
    exception, whatever the first line is. *)
Theorem onReady_gate (queryString fslocText : string) :
  ~ occurs ";a=blob" queryString \/ ~ occurs ";f=" queryString ->
  Syntax0.onReady queryString = Returned
  /\ Syntax1.onReady queryString fslocText = Ok Returned
  /\ Syntax2.onReady queryString fslocText = Ok Returned
  /\ Syntax3.onReady queryString fslocText = Ok Returned.
Proof.
  intros H. split; [|repeat split; now apply Engine_onReady_gate].
  unfold Syntax0.onReady, Syntax0.isFileBlob, Syntax0.highlightSyntax.
  destruct (negb (truthy (JStr queryString))); [reflexivity|].
  destruct H as [H|H].
  - now rewrite (split_single _ _ _ H).
  - rewrite (split_single _ _ _ H).
    now destruct (length (split ";a=blob" queryString) - 1 =? 0)%nat.
Qed.

Lemma onReady_gate_witness :
  Syntax0.onReady "?p=project.git;a=summary" = Returned
  /\ Syntax1.onReady "?p=project.git;a=summary" "#!/bin/bash" = Ok Returned
  /\ Syntax2.onReady "?p=project.git;a=summary" "#!/bin/bash" = Ok Returned
  /\ Syntax3.onReady "?p=project.git;a=summary" "#!/bin/bash" = Ok Returned.
Proof.
  apply onReady_gate. left.
  apply toBool_getLastIndex_split_false. reflexivity.
Defined.

(** ** The path in the query string *)

Lemma hd_push_front (c : ascii) (segs : list string) :
  segs <> [] -> hd "" (push_front c segs) = String c (hd "" segs).
Proof. destruct segs; [contradiction | reflexivity]. Qed.

Lemma prefix_other (a c : ascii) (sep s : string) :
  Ascii.eqb a c = false -> String.prefix (String a sep) (String c s) = false.
Proof.
  intros H. simpl. destruct (ascii_dec a c) as [->|_]; [|reflexivity].
  now rewrite Ascii.eqb_refl in H.
Qed.

(** Text without the first code unit of the separator opens the first
    segment. *)
Lemma hd_split_go_app (a : ascii) (sep path rest : string) :
  has_char a path = false ->
  hd "" (split_go (String a sep) (path ++ rest)%string 0)
  = (path ++ hd "" (split_go (String a sep) rest 0))%string.
Proof.
  induction path as [|c path IH]; intros H; [reflexivity|].
  simpl in H. apply orb_false_iff in H as [Hc Hp].
  simpl append. cbn [split_go]. rewrite (prefix_other a c _ _ Hc).
  rewrite hd_push_front by apply split_go_nonempty.
  now rewrite IH.
Qed.

Lemma hd_split_char (c : ascii) (a b : string) :
  has_char c a = false ->
  hd "" (split_go (String c "") (a ++ String c b)%string 0) = a.
Proof.
  intros H. rewrite (hd_split_go_app c "" a (String c b) H).
  rewrite split_go_char_cons, Ascii.eqb_refl. simpl.
  clear. induction a as [|x a IH]; simpl; [reflexivity | now rewrite IH].
Qed.

Lemma occurs_tail (sep : string) (c : ascii) (s : string) :
  occurs sep s -> occurs sep (String c s).
Proof. intros (pre & post & ->). now exists (String c pre), post. Qed.

(** The first [;f=] closes the first segment. *)
Lemma split_f_first (pre rest : string) :
  ~ occurs ";f" pre ->
  split_go ";f=" (pre ++ ";f=" ++ rest)%string 0 = pre :: split_go ";f=" rest 0.
Proof.
  induction pre as [|c pre IH]; intros H.
  - change ("" ++ ";f=" ++ rest)%string with (String ";" ("f=" ++ rest))%string.
    cbn [split_go].
    assert (String.prefix ";f=" (String ";" ("f=" ++ rest)) = true) as ->
      by (apply prefix_spec; now exists rest).
    reflexivity.
  - change (String c pre ++ ";f=" ++ rest)%string
      with (String c (pre ++ ";f=" ++ rest))%string.
    cbn [split_go].
    assert (String.prefix ";f=" (String c (pre ++ ";f=" ++ rest)) = false) as ->.
    { destruct (String.prefix ";f=" (String c (pre ++ ";f=" ++ rest))) eqn:E;
        [|reflexivity].
      exfalso. apply prefix_spec in E as [r Hr]. simpl in Hr.
      injection Hr as -> Hr.
      destruct pre as [|d pre]; simpl in Hr; [discriminate|].
      injection Hr as -> _. apply H. now exists "", pre. }
    rewrite IH; [reflexivity|].
    intros Ho. apply H. now apply occurs_tail.
Qed.

(** What [pathNameOf] reads when the [f] parameter is followed by nothing
    or by a semicolon. *)
Lemma pathNameOf_first (pre path tail : string) :
  ~ occurs ";f" pre -> has_char ";" path = false ->
  tail = "" \/ (exists t, tail = String ";" t) ->
  exists more,
    split ";f=" (pre ++ ";f=" ++ path ++ tail) = pre :: more
    /\ more <> []
    /\ Syntax0.pathNameOf (pre :: more) = path.
Proof.
  intros Hpre Hpath Htail.
  exists (split_go ";f=" (path ++ tail) 0).
  split; [apply (split_f_first pre (path ++ tail) Hpre)|].
  split; [apply split_go_nonempty|].
  unfold Syntax0.pathNameOf.
  replace (nth 1 (pre :: split_go ";f=" (path ++ tail) 0) "")
    with (hd "" (split_go ";f=" (path ++ tail) 0))
    by (simpl; now destruct (split_go ";f=" (path ++ tail) 0)).
  rewrite (hd_split_go_app ";" "f=" path tail Hpath).
  unfold split.
  destruct Htail as [->|[t ->]].
  - simpl hd. rewrite (split_char_app ";" path "" eq_refl).
    rewrite (split_char_absent ";" path Hpath). simpl.
    clear. induction path as [|x a IH]; simpl; [reflexivity | now rewrite IH].
  - cbn [split_go].
    destruct (String.prefix ";f=" (String ";" t)).
    + simpl hd. rewrite (split_char_app ";" path "" eq_refl).
      rewrite (split_char_absent ";" path Hpath). simpl.
      clear. induction path as [|x a IH]; simpl; [reflexivity | now rewrite IH].
    + rewrite hd_push_front by apply split_go_nonempty.
      apply (hd_split_char ";" path _ Hpath).
Qed.

Lemma fileTypeOf_Syntax0 (queryString : string) :
  Engine.fileTypeOf queryString
  = Ok (if (length (split ";f=" queryString) - 1 =? 0)%nat then None
        else Some (JStr (Syntax0.fileTypeOf
                           (Syntax0.pathNameOf (split ";f=" queryString))))).
Proof.
  unfold Engine.fileTypeOf, Engine.pathOf.
  change (toArray (JStr queryString) (SepString ";f="))
    with (Ok (split ";f=" queryString)).
  cbn [bind].
  pose proof (split_nonempty ";" "f=" queryString) as Hn.
  destruct (split ";f=" queryString) as [|a [|y l]]; [simpl in Hn; lia | reflexivity |].
  change (toBool (getLastIndex (a :: y :: l))) with true. cbn [negb].
  change (index (a :: y :: l) 1) with (JStr y).
  change (toArray (JStr y) (SepString ";")) with (Ok (split ";" y)).
  cbn [bind].
  unfold Syntax0.pathNameOf. change (nth 1 (a :: y :: l) "") with y.
  pose proof (split_nonempty ";" "" y) as Hy.
  destruct (split ";" y) as [|z more]; [simpl in Hy; lia|].
  change (index (z :: more) 0) with (JStr z).
  rewrite extensionOf_fileTypeOf. reflexivity.
Qed.

(** X5: the revisions built on [Utils] read the same file type off every
    query string as the first revision: none without [;f=], and otherwise
    the extension of the first segment of what follows the first [;f=]. *)
Theorem fileTypeOf_agrees (queryString : string) :
  Engine.fileTypeOf queryString
  = Ok (if (length (split ";f=" queryString) - 1 =? 0)%nat then None
        else Some (JStr (Syntax0.fileTypeOf
                           (Syntax0.pathNameOf (split ";f=" queryString))))).
Proof. apply fileTypeOf_Syntax0. Qed.

Lemma first_file_parameter_aux (pre path tail : string) :
  ~ occurs ";f" pre -> has_char ";" path = false ->
  tail = "" \/ (exists t, tail = String ";" t) ->
  let queryString := (pre ++ ";f=" ++ path ++ tail)%string in
  let fileType := Syntax0.fileTypeOf path in
  Engine.fileTypeOf queryString = Ok (Some (JStr fileType))
  /\ Syntax0.highlightSyntax queryString
     = if (includes (JStr fileType) Syntax0.VALID_FILE_TYPES
           || Syntax0.isFileTypeSynonym (JStr fileType))%bool
       then Configured " " (Syntax0.getFileTypeAssocs (Syntax0.primaryOf fileType))
       else Returned.
Proof.
  intros Hpre Hpath Htail queryString fileType.
  destruct (pathNameOf_first pre path tail Hpre Hpath Htail) as (more & Hs & Hm & Hp).
  assert ((length (split ";f=" queryString) - 1 =? 0)%nat = false) as Hl.
  { unfold queryString. rewrite Hs. destruct more; [contradiction | reflexivity]. }
  split.
  - rewrite fileTypeOf_Syntax0, Hl. unfold queryString. now rewrite Hs, Hp.
  - unfold Syntax0.highlightSyntax. rewrite Hl.
    unfold queryString. rewrite Hs, Hp. fold fileType.
    now destruct (includes (JStr fileType) Syntax0.VALID_FILE_TYPES
                  || Syntax0.isFileTypeSynonym (JStr fileType))%bool.
Qed.

(** X6: when the text before the first [;f=] holds no [;f], the path
    holds no semicolon, and the path ends the query string or is followed by
    a semicolon, the file type is the extension of that path, in every
    revision, and the first revision configures the highlighter exactly when
    that extension is a primary file type or a synonym. *)
Theorem first_file_parameter (pre path tail : string) :
  ~ occurs ";f" pre -> has_char ";" path = false ->
  tail = "" \/ (exists t, tail = String ";" t) ->
  let queryString := (pre ++ ";f=" ++ path ++ tail)%string in
  let fileType := Syntax0.fileTypeOf path in
  Engine.fileTypeOf queryString = Ok (Some (JStr fileType))
  /\ Syntax0.highlightSyntax queryString
     = if (includes (JStr fileType) Syntax0.VALID_FILE_TYPES
           || Syntax0.isFileTypeSynonym (JStr fileType))%bool
       then Configured " " (Syntax0.getFileTypeAssocs (Syntax0.primaryOf fileType))
       else Returned.
Proof. apply first_file_parameter_aux. Qed.

Lemma first_file_parameter_witness :
  Engine.fileTypeOf "?p=r.git;a=blob;f=lib/app.php5;hb=HEAD"
  = Ok (Some (JStr (Syntax0.fileTypeOf "lib/app.php5")))
  /\ Syntax0.highlightSyntax "?p=r.git;a=blob;f=lib/app.php5;hb=HEAD"
     = if (includes (JStr (Syntax0.fileTypeOf "lib/app.php5")) Syntax0.VALID_FILE_TYPES
           || Syntax0.isFileTypeSynonym (JStr (Syntax0.fileTypeOf "lib/app.php5")))%bool
       then Configured " "
              (Syntax0.getFileTypeAssocs
                 (Syntax0.primaryOf (Syntax0.fileTypeOf "lib/app.php5")))
       else Returned.
Proof.
  apply (first_file_parameter "?p=r.git;a=blob" "lib/app.php5" ";hb=HEAD").
  - assert (forall s, ~ occurs ";f" s <->
                      toBool (getLastIndex (split ";f" s)) = false) as E
      by (intros s; symmetry; apply toBool_getLastIndex_split_false).
    apply E. reflexivity.
  - reflexivity.
  - right. now exists "hb=HEAD".
Defined.

(** X7: the edges of the extension.  A file name without a dot is its own
    extension, so a file called [sh] in any directory counts as a shell
    script; a path that ends in a slash or in a dot has the empty extension,
    which is no file type and no synonym. *)
Theorem fileTypeOf_edges (dir name : string) :
  (has_char "." name = false -> has_char "/" name = false ->
   Syntax0.fileTypeOf (dir ++ "/" ++ name) = name
   /\ Syntax0.fileTypeOf name = name)
  /\ Syntax0.fileTypeOf (dir ++ "/") = ""
  /\ Syntax0.fileTypeOf (dir ++ ".") = ""
  /\ Syntax0.fileTypeOf "" = ""
  /\ includes (JStr "") Syntax0.VALID_FILE_TYPES = false
  /\ Syntax0.isFileTypeSynonym (JStr "") = false
  /\ Syntax0.primaryOf "sh" = JStr "sh".
Proof.
  assert (forall n, has_char "." n = false -> has_char "/" n = false ->
                    Syntax0.fileTypeOf (dir ++ "/" ++ n) = n) as H.
  { intros n Hdot Hslash. unfold Syntax0.fileTypeOf, split.
    change (dir ++ "/" ++ n)%string with (dir ++ String "/" n)%string.
    rewrite (split_char_sep "/" dir n Hslash), nth_last_snoc.
    rewrite (split_char_absent "." n Hdot). reflexivity. }
  split; [|split; [exact (H "" eq_refl eq_refl)|split;
    [exact (fileTypeOf_extension dir "" eq_refl eq_refl) | repeat split; reflexivity]]].
  intros Hdot Hslash. split; [now apply H|].
  unfold Syntax0.fileTypeOf, split.
  rewrite (split_char_absent "/" name Hslash). simpl.
  now rewrite (split_char_absent "." name Hdot).
Qed.

Lemma fileTypeOf_edges_witness :
  Syntax0.fileTypeOf "bin/sh" = "sh" /\ Syntax0.fileTypeOf "sh" = "sh".
Proof.
  apply (proj1 (fileTypeOf_edges "bin" "sh")); reflexivity.
Defined.

(** ** What the first revision hands to the highlighter *)

(** Every key of the synonym table is a primary file type. *)
Lemma synonym_keys_primary (key : string) :
  In key (keys Syntax0.VALID_FILE_TYPE_SYNONYMS) -> In key Syntax0.VALID_FILE_TYPES.
Proof.
  simpl. intros H.
  repeat (destruct H as [<-|H]; [simpl; auto 20|]). contradiction.
Qed.

Lemma primaryOf_primary (t : string) :
  In t Syntax0.VALID_FILE_TYPES -> Syntax0.primaryOf t = JStr t.
Proof.
  intros H. unfold Syntax0.primaryOf. apply includes_In in H. now rewrite H.
Qed.

Lemma primaryOf_cases (tok : string) :
  ((includes (JStr tok) Syntax0.VALID_FILE_TYPES
    || Syntax0.isFileTypeSynonym (JStr tok))%bool = false
   /\ Syntax0.primaryOf tok = JNull)
  \/ ((includes (JStr tok) Syntax0.VALID_FILE_TYPES
       || Syntax0.isFileTypeSynonym (JStr tok))%bool = true
      /\ exists t, Syntax0.primaryOf tok = JStr t /\ In t Syntax0.VALID_FILE_TYPES).
Proof.
  unfold Syntax0.primaryOf.
  destruct (includes (JStr tok) Syntax0.VALID_FILE_TYPES) eqn:E; cbn [negb orb].
  - right. split; [reflexivity|]. exists tok. split; [reflexivity|].
    now apply includes_In.
  - destruct (synonym_loops_agree Syntax0.VALID_FILE_TYPE_SYNONYMS (JStr tok))
      as [Ht Hf].
    fold (Syntax0.isFileTypeSynonym (JStr tok)) in Ht, Hf.
    fold (Syntax0.getPrimaryFileType (JStr tok)) in Ht, Hf.
    destruct (Syntax0.isFileTypeSynonym (JStr tok)).
    + right. split; [reflexivity|].
      destruct (proj1 Ht eq_refl) as (key & Hk & ->).
      exists key. split; [reflexivity | now apply synonym_keys_primary].
    + left. split; [reflexivity | now apply Hf].
Qed.

(** X8: the first revision resolves a token to [null] exactly when the
    token is neither a primary file type nor a synonym, never to
    [undefined], and otherwise to a primary file type, which resolves to
    itself: resolving twice changes nothing. *)
Theorem primaryOf_range (tok : string) :
  (Syntax0.primaryOf tok = JNull
   <-> (includes (JStr tok) Syntax0.VALID_FILE_TYPES
        || Syntax0.isFileTypeSynonym (JStr tok))%bool = false)
  /\ Syntax0.primaryOf tok <> JUndefined
  /\ forall t, Syntax0.primaryOf tok = JStr t ->
               In t Syntax0.VALID_FILE_TYPES /\ Syntax0.primaryOf t = JStr t.
Proof.
  destruct (primaryOf_cases tok) as [[Hv Hp]|[Hv (t' & Hp & Hin)]]; rewrite Hp, Hv.
  - repeat split; try discriminate; auto.
  - repeat split; try discriminate.
    + injection H as <-. exact Hin.
    + injection H as <-. now apply primaryOf_primary.
Qed.

Lemma primaryOf_range_witness :
  In "html" Syntax0.VALID_FILE_TYPES /\ Syntax0.primaryOf "html" = JStr "html".
Proof.
  apply (proj2 (proj2 (primaryOf_range "xhtml")) "html"). reflexivity.
Defined.

(** The expansion of a primary file type: strings of the list of primary
    file types, none of them twice. *)
Lemma getFileTypeAssocs_primary (t : string) :
  In t Syntax0.VALID_FILE_TYPES ->
  exists rest : list string,
    Syntax0.getFileTypeAssocs (JStr t) = map JStr (t :: rest)
    /\ (forall x, In x rest -> In x Syntax0.VALID_FILE_TYPES)
    /\ NoDup (t :: rest).
Proof.
  intros H.
  exists (match get Syntax0.VALID_FILE_TYPE_ASSOCS t with
          | Some assocs => assocs
          | None => []
          end).
  simpl in H.
  repeat (destruct H as [<-|H];
    [split; [reflexivity|]; split;
       [simpl; intros x Hx; repeat (destruct Hx as [<-|Hx]; [auto 20|]); contradiction
       |repeat constructor; not_in_literals]|]).
  contradiction.
Qed.

(** X9: whenever the first revision configures the highlighter, the query
    string holds [;a=blob] and [;f=], the tab replacement is one space, and
    the languages are strings of [VALID_FILE_TYPES], at least one and none
    twice: never [null] or [undefined]. *)
Theorem onReady_languages (queryString tab : string) (languages : list jsval) :
  Syntax0.onReady queryString = Configured tab languages ->
  occurs ";a=blob" queryString /\ occurs ";f=" queryString
  /\ tab = " "
  /\ exists (t : string) (rest : list string),
       languages = map JStr (t :: rest)
       /\ (forall x, In x (t :: rest) -> In x Syntax0.VALID_FILE_TYPES)
       /\ NoDup (t :: rest).
Proof.
  unfold Syntax0.onReady, Syntax0.isFileBlob, Syntax0.highlightSyntax.
  destruct (negb (truthy (JStr queryString))); [discriminate|].
  destruct (length (split ";a=blob" queryString) - 1 =? 0)%nat eqn:Eb;
    cbn [negb]; [discriminate|].
  destruct (length (split ";f=" queryString) - 1 =? 0)%nat eqn:Ef; [discriminate|].
  set (tok := Syntax0.fileTypeOf (Syntax0.pathNameOf (split ";f=" queryString))).
  destruct (primaryOf_cases tok) as [[Hv Hp]|[Hv (t & Hp & Hin)]]; rewrite Hv;
    cbn [negb]; [discriminate|].
  rewrite Hp. intros [= <- <-].
  apply Nat.eqb_neq in Eb, Ef.
  split; [apply split_occurs; lia|]. split; [apply split_occurs; lia|].
  split; [reflexivity|].
  destruct (getFileTypeAssocs_primary t Hin) as (rest & Hl & Hall & Hnd).
  exists t, rest. split; [exact Hl|]. split; [|exact Hnd].
  intros x [<-|Hx]; auto.
Qed.

Lemma onReady_languages_witness :
  occurs ";a=blob" ";a=blob;f=index.xhtml" /\ occurs ";f=" ";a=blob;f=index.xhtml"
  /\ " " = " "
  /\ exists (t : string) (rest : list string),
       [JStr "html"; JStr "css"; JStr "js"; JStr "php"] = map JStr (t :: rest)
       /\ (forall x, In x (t :: rest) -> In x Syntax0.VALID_FILE_TYPES)
       /\ NoDup (t :: rest).
Proof.
  apply (onReady_languages ";a=blob;f=index.xhtml" " "). reflexivity.
Defined.

(** ** The first two revisions *)

Lemma isFileTypeSynonym_loop_In (entries : object (list string)) (t : string) :
  Syntax0.isFileTypeSynonym_loop entries (JStr t) = true ->
  In t (flat_map snd entries).
Proof.
  induction entries as [|[k syns] rest IH]; simpl; [discriminate|].
  destruct (includes (JStr t) syns) eqn:E; intros H; apply in_or_app.
  - left. now apply includes_In.
  - right. now apply IH.
Qed.

(** The tokens the first revision accepts. *)
Lemma valid_token_listed (tok : string) :
  (includes (JStr tok) Syntax0.VALID_FILE_TYPES
   || Syntax0.isFileTypeSynonym (JStr tok))%bool = true ->
  In tok (Syntax0.VALID_FILE_TYPES ++ flat_map snd Syntax0.VALID_FILE_TYPE_SYNONYMS).
Proof.
  intros H. apply orb_true_iff in H as [H|H]; apply in_or_app.
  - left. now apply includes_In.
  - right. now apply isFileTypeSynonym_loop_In.
Qed.

(** X10: on a page whose first line has no [#!], the revision with
    [VALID_LANG_NAMES] configures the highlighter with the same languages
    as the first revision wherever the first revision configures it (it
    replaces a tab by two spaces instead of one). *)
Theorem Syntax1_extends_Syntax0
  (queryString fslocText tab : string) (languages : list jsval) :
  ~ occurs "#!" fslocText ->
  Syntax0.onReady queryString = Configured tab languages ->
  Syntax1.onReady queryString fslocText = Ok (Configured "  " languages).
Proof.
  intros Hm.
  unfold Syntax0.onReady, Syntax0.isFileBlob, Syntax0.highlightSyntax.
  destruct (truthy (JStr queryString)) eqn:Et; cbn [negb]; [|discriminate].
  destruct (length (split ";a=blob" queryString) - 1 =? 0)%nat eqn:Eb;
    cbn [negb]; [discriminate|].
  destruct (length (split ";f=" queryString) - 1 =? 0)%nat eqn:Ef; [discriminate|].
  remember (Syntax0.fileTypeOf (Syntax0.pathNameOf (split ";f=" queryString))) as tok.
  destruct (includes (JStr tok) Syntax0.VALID_FILE_TYPES
            || Syntax0.isFileTypeSynonym (JStr tok))%bool eqn:Hv;
    cbn [negb]; [|discriminate].
  intros [= _ <-].
  unfold Syntax1.onReady, Engine.onReady, Engine.isFileBlob.
  change (toArray (JStr queryString) (SepString ";a=blob"))
    with (Ok (split ";a=blob" queryString)).
  cbn [bind]. rewrite Et.
  assert (toBool (getLastIndex (split ";a=blob" queryString)) = true) as ->.
  { apply toBool_getLastIndex. apply Nat.eqb_neq in Eb. lia. }
  cbn [andb negb]. unfold Engine.highlightSyntax.
  rewrite fileTypeOf_Syntax0, Ef, <- Heqtok. cbn [bind].
  rewrite (finalFileType_without_marker _ _ _ _ _ _ Hm).
  apply valid_token_listed in Hv. clear Heqtok. simpl in Hv.
  repeat (destruct Hv as [<-|Hv]; [reflexivity|]). contradiction.
Qed.

Lemma Syntax1_extends_Syntax0_witness :
  Syntax1.onReady ";a=blob;f=cgi-bin/form.cgi" "   1 use strict;"
  = Ok (Configured "  " [JStr "pl"]).
Proof.
  apply (Syntax1_extends_Syntax0 ";a=blob;f=cgi-bin/form.cgi" "   1 use strict;" " ").
  - apply toBool_getLastIndex_split_false. reflexivity.
  - reflexivity.
Defined.

(** ** The first line *)

(** X11: [isExecutable] never throws, and it answers true exactly when the
    first line holds [#!]; the three later revisions share it. *)
Theorem isExecutable_iff_marker (fslocText : string) :
  (Syntax1.isExecutable fslocText = Ok true <-> occurs "#!" fslocText)
  /\ (Syntax1.isExecutable fslocText = Ok false <-> ~ occurs "#!" fslocText)
  /\ (Syntax2.isExecutable fslocText = Ok true <-> occurs "#!" fslocText)
  /\ (Syntax3.isExecutable fslocText = Ok true <-> occurs "#!" fslocText)
  /\ exists b, Syntax3.isExecutable fslocText = Ok b.
Proof.
  repeat split; try apply isExecutable_true; try apply isExecutable_false.
  eexists. apply isExecutable_spec.
Qed.

Lemma includes_string (v : jsval) (names : list string) :
  includes v names = true -> exists l, v = JStr l /\ In l names.
Proof.
  unfold includes. rewrite existsb_exists. intros (x & Hx & He).
  destruct v as [| |s]; try discriminate.
  simpl in He. apply String.eqb_eq in He. subst. eauto.
Qed.

(** Where [getExecutableType] returns, it returns [null] or one of the
    names it searched. *)
Lemma getExecutableType_names (names : list string) (fslocText : string) (v : jsval) :
  Engine.getExecutableType (Ok (HArray names)) fslocText = Ok v ->
  v = JNull \/ exists l, v = JStr l /\ In l names.
Proof.
  intros H. pose proof (getExecutableType_Ok_occurs _ _ _ H) as Hm.
  destruct (getExecutableType_steps (Ok (HArray names)) fslocText Hm)
    as (executable & flagOptions & E).
  rewrite E in H. clear E. revert H.
  unfold andThen, inArray. cbn [bind].
  destruct (toBool (getLastIndex flagOptions)); cbn [negb bind].
  - destruct (includes (index flagOptions 0) names) eqn:E0.
    { intros [= <-]. right. now apply includes_string. }
    destruct (includes (index flagOptions 1) names) eqn:E1.
    { intros [= <-]. right. now apply includes_string. }
    intros [= <-]. now left.
  - destruct (includes (JStr executable) names) eqn:E0.
    { intros [= <-]. right. now apply includes_string. }
    intros [= <-]. now left.
Qed.

(** X12: in the revision with [VALID_LANG_NAMES], [getExecutableType]
    throws a [TypeError] on a first line without [#!]; on a line with it, it
    returns [null] or a name of [VALID_LANG_NAMES], never [undefined] and
    never [sh], the one key of the table of executables that is no such
    name. *)
Theorem getExecutableType_range (fslocText : string) :
  (~ occurs "#!" fslocText -> Syntax1.getExecutableType fslocText = Throw TypeError)
  /\ (occurs "#!" fslocText ->
      exists v, Syntax1.getExecutableType fslocText = Ok v
                /\ (v = JNull
                    \/ exists l, v = JStr l /\ In l Syntax1.VALID_LANG_NAMES))
  /\ Syntax1.getExecutableType fslocText <> Ok JUndefined
  /\ Syntax1.getExecutableType fslocText <> Ok (JStr "sh").
Proof.
  split; [apply getExecutableType_without_marker|]. split.
  - intros Hm.
    destruct (getExecutableType_total Syntax1.VALID_LANG_NAMES fslocText Hm) as [v Hv].
    exists v. split; [exact Hv|].
    exact (getExecutableType_names _ _ _ Hv).
  - split; intros H; apply getExecutableType_names in H as [H|(l & H & Hin)];
      try discriminate.
    injection H as <-. revert Hin. not_in_literals.
Qed.

Lemma getExecutableType_range_witness :
  Syntax1.getExecutableType "no shebang here" = Throw TypeError
  /\ exists v, Syntax1.getExecutableType "   1 #!/usr/bin/env ruby" = Ok v
               /\ (v = JNull
                   \/ exists l, v = JStr l /\ In l Syntax1.VALID_LANG_NAMES).
Proof.
  split.
  - apply (proj1 (getExecutableType_range "no shebang here")).
    apply toBool_getLastIndex_split_false. reflexivity.
  - apply (proj1 (proj2 (getExecutableType_range "   1 #!/usr/bin/env ruby"))).
    apply toBool_getLastIndex_split. reflexivity.
Defined.

(** *** The segments around the marker *)

Lemma append_nil_r (s : string) : (s ++ "")%string = s.
Proof. induction s as [|c s IH]; simpl; [reflexivity | now rewrite IH]. Qed.

Lemma split_go_absent (a : ascii) (sep r : string) :
  has_char a r = false -> split_go (String a sep) r 0 = [r].
Proof.
  induction r as [|c r IH]; intros H; [reflexivity|].
  simpl in H. apply orb_false_iff in H as [Hc Hr].
  cbn [split_go]. rewrite (prefix_other a c _ _ Hc), (IH Hr). reflexivity.
Qed.

Lemma split_go_app_first (a : ascii) (sep pre rest : string) :
  has_char a pre = false ->
  split_go (String a sep) (pre ++ rest)%string 0
  = (pre ++ hd "" (split_go (String a sep) rest 0))%string
    :: tl (split_go (String a sep) rest 0).
Proof.
  induction pre as [|c pre IH]; intros H.
  - simpl append. pose proof (split_go_nonempty (String a sep) rest 0).
    destruct (split_go (String a sep) rest 0); [contradiction | reflexivity].
  - simpl in H. apply orb_false_iff in H as [Hc Hp].
    simpl append. cbn [split_go].
    rewrite (prefix_other a c _ _ Hc), (IH Hp). reflexivity.
Qed.

Lemma split_go_cons (sep : string) (c : ascii) (s : string) :
  split_go sep (String c s) 0
  = if String.prefix sep (String c s)
    then "" :: split_go sep s (String.length sep - 1)
    else push_front c (split_go sep s 0).
Proof. reflexivity. Qed.

Lemma split_go_sep_head (a : ascii) (sep r : string) :
  split_go (String a sep) (String a sep ++ r)%string 0
  = "" :: split_go (String a sep) r 0.
Proof.
  change (String a sep ++ r)%string with (String a (sep ++ r))%string.
  rewrite split_go_cons.
  assert (String.prefix (String a sep) (String a (sep ++ r)) = true) as ->
    by (apply prefix_spec; now exists r).
  replace (String.length (String a sep) - 1) with (String.length sep)
    by (simpl; lia).
  now rewrite split_go_skip.
Qed.

Lemma split_marker (pre r : string) :
  has_char "#" pre = false -> has_char "#" r = false ->
  split "#!" (pre ++ "#!" ++ r) = [pre; r].
Proof.
  intros Hpre Hr. unfold split.
  rewrite (split_go_app_first "#" "!" pre _ Hpre).
  rewrite (split_go_sep_head "#" "!" r).
  rewrite (split_go_absent "#" "!" r Hr). simpl. now rewrite append_nil_r.
Qed.

(** When no [#] stands around the marker, the name is searched in the
    text after the last slash of what follows the marker. *)
Lemma getExecutableType_at (names : result haystack) (pre r : string) :
  has_char "#" pre = false -> has_char "#" r = false ->
  Engine.getExecutableType names (pre ++ "#!" ++ r)
  = (let executable := nth (length (split "/" r) - 1) (split "/" r) "" in
     let flagOptions := split_class isWhiteSpace executable in
     let hasOptions := toBool (getLastIndex flagOptions) in
     plain <- andThen (negb hasOptions)
                (names <- names ;; inArray (JStr executable) names) ;;
     if plain then Ok (JStr executable)
     else
       direct <- andThen hasOptions
                   (names <- names ;; inArray (index flagOptions 0) names) ;;
       if direct then Ok (index flagOptions 0)
       else
         indirect <- andThen hasOptions
                       (names <- names ;; inArray (index flagOptions 1) names) ;;
         if indirect then Ok (index flagOptions 1)
         else Ok JNull).
Proof.
  intros Hpre Hr. unfold Engine.getExecutableType.
  change (toArray (JStr (pre ++ "#!" ++ r)) (SepString "#!"))
    with (Ok (split "#!" (pre ++ "#!" ++ r))).
  rewrite (split_marker pre r Hpre Hr). cbn [bind].
  change (index [pre; r] 1) with (JStr r).
  change (toArray (JStr r) (SepString "/")) with (Ok (split "/" r)).
  cbn [bind].
  rewrite index_last by apply split_go_nonempty.
  reflexivity.
Qed.

Lemma last_component (a b : string) :
  has_char "/" b = false ->
  nth (length (split "/" (a ++ String "/" b)) - 1) (split "/" (a ++ String "/" b)) ""
  = b.
Proof.
  intros H. unfold split. rewrite (split_char_sep "/" a b H). apply nth_last_snoc.
Qed.

Lemma has_char_app (c : ascii) (a b : string) :
  has_char c (a ++ b) = (has_char c a || has_char c b)%bool.
Proof.
  induction a as [|x a IH]; simpl; [reflexivity|].
  now rewrite IH, orb_assoc.
Qed.

(** X13: when no [#] stands on the line but the one of the marker, what is
    before the marker and the directories after it do not count:
    [getExecutableType] looks at the text after the last slash only.  So an
    argument that holds a slash hides the interpreter, as in the line
    [#!/bin/bash -x some/path/to/exec argOne argTwo]. *)
Theorem getExecutableType_last_slash :
  (forall pre dirs name : string,
     has_char "#" pre = false -> has_char "#" dirs = false ->
     has_char "#" name = false -> has_char "/" name = false ->
     Syntax1.getExecutableType (pre ++ "#!" ++ dirs ++ "/" ++ name)
     = Syntax1.getExecutableType ("#!/" ++ name))
  /\ Syntax1.getExecutableType "#!/bin/bash -x some/path/to/exec argOne argTwo"
     = Ok JNull.
Proof.
  split; [|reflexivity].
  intros pre dirs name Hpre Hdirs Hname Hslash.
  unfold Syntax1.getExecutableType.
  change ("#!/" ++ name)%string with ("" ++ "#!" ++ ("" ++ String "/" name))%string.
  change (dirs ++ "/" ++ name)%string with (dirs ++ String "/" name)%string.
  rewrite !getExecutableType_at;
    try reflexivity; try assumption;
    try (rewrite has_char_app; simpl; now rewrite ?Hdirs, ?Hname).
  now rewrite !last_component.
Qed.

Lemma getExecutableType_last_slash_witness :
  Syntax1.getExecutableType "   1 #!/usr/local/bin/python -u"
  = Syntax1.getExecutableType "#!/python -u".
Proof.
  apply (proj1 getExecutableType_last_slash "   1 " "/usr/local/bin" "python -u");
    reflexivity.
Defined.

Lemma split_class_word (p : ascii -> bool) (w : string) (c : ascii) (r : string) :
  forallb (fun x => negb (p x)) (list_ascii_of_string w) = true -> p c = true ->
  split_class p (w ++ String c r) = w :: split_class p r.
Proof.
  intros Hw Hc. induction w as [|x w IH]; simpl.
  - now rewrite Hc.
  - simpl in Hw. apply andb_true_iff in Hw as [Hx Hw].
    apply negb_true_iff in Hx. rewrite Hx, (IH Hw). reflexivity.
Qed.

(** X14: in the revision with [VALID_LANG_NAMES], on a line without a
    further [#], every name [l] of [VALID_LANG_NAMES] is found in the three
    shapes of a shebang: as the last component of the path, as the last
    component followed by a space and arguments without a slash, and as the
    word after a launcher that is no such name and holds no white space (as
    in [/usr/bin/env l]), provided one space separates them. *)
Theorem getExecutableType_shapes (pre dirs l : string) :
  has_char "#" pre = false -> has_char "#" dirs = false ->
  In l Syntax1.VALID_LANG_NAMES ->
  Syntax1.getExecutableType (pre ++ "#!" ++ dirs ++ "/" ++ l) = Ok (JStr l)
  /\ (forall args : string,
        has_char "#" args = false -> has_char "/" args = false ->
        Syntax1.getExecutableType (pre ++ "#!" ++ dirs ++ "/" ++ l ++ " " ++ args)
        = Ok (JStr l))
  /\ (forall launcher args : string,
        ~ In launcher Syntax1.VALID_LANG_NAMES ->
        forallb (fun x => negb (isWhiteSpace x)) (list_ascii_of_string launcher) = true ->
        has_char "#" launcher = false -> has_char "/" launcher = false ->
        args = ""
        \/ (exists more, args = String " " more
                         /\ has_char "#" more = false /\ has_char "/" more = false) ->
        Syntax1.getExecutableType
          (pre ++ "#!" ++ dirs ++ "/" ++ launcher ++ " " ++ l ++ args)
        = Ok (JStr l)).
Proof.
  intros Hpre Hdirs Hl. unfold Syntax1.getExecutableType.
  split; [|split].
  - change (dirs ++ "/" ++ l)%string with (dirs ++ String "/" l)%string.
    simpl in Hl.
    repeat (destruct Hl as [<-|Hl];
      [rewrite getExecutableType_at;
         [rewrite last_component by reflexivity; reflexivity
         |assumption
         |rewrite has_char_app, Hdirs; reflexivity]|]).
    contradiction.
  - intros args Hargs Hslash.
    change (dirs ++ "/" ++ l ++ " " ++ args)%string
      with (dirs ++ String "/" (l ++ String " " args))%string.
    pose proof (split_class_nonempty isWhiteSpace args) as Hne.
    simpl in Hl.
    repeat (destruct Hl as [<-|Hl];
      [rewrite getExecutableType_at;
         [rewrite last_component by (simpl; exact Hslash);
          simpl; destruct (split_class isWhiteSpace args);
            [contradiction | reflexivity]
         |assumption
         |rewrite has_char_app, Hdirs; simpl; exact Hargs]|]).
    contradiction.
  - intros launcher args Hno Hws Hhash Hslash Hargs.
    change (dirs ++ "/" ++ launcher ++ " " ++ l ++ args)%string
      with (dirs ++ String "/" (launcher ++ String " " (l ++ args)))%string.
    apply includes_not_In in Hno.
    assert (has_char "#" (l ++ args) = false /\ has_char "/" (l ++ args) = false
            /\ exists rest, split_class isWhiteSpace (l ++ args) = l :: rest)
      as (Hh & Hs & rest & Hsp).
    { destruct Hargs as [->|(more & -> & Hm1 & Hm2)]; simpl in Hl.
      - repeat (destruct Hl as [<-|Hl];
          [repeat split; try reflexivity; now exists []|]).
        contradiction.
      - repeat (destruct Hl as [<-|Hl];
          [repeat split; try (simpl; assumption);
           eexists; apply (split_class_word isWhiteSpace _ " " more);
             reflexivity|]).
        contradiction. }
    rewrite getExecutableType_at;
      [|assumption
       |rewrite has_char_app, Hdirs; simpl; rewrite has_char_app, Hhash; simpl;
        exact Hh].
    rewrite last_component
      by (rewrite has_char_app, Hslash; simpl; exact Hs).
    cbn zeta.
    rewrite (split_class_word isWhiteSpace launcher " " (l ++ args) Hws eq_refl), Hsp.
    unfold andThen, inArray. cbn [bind getLastIndex toBool length Nat.ltb Nat.leb
      Nat.sub Nat.eqb negb index nth_error].
    rewrite Hno.
    assert (includes (JStr l) Syntax1.VALID_LANG_NAMES = true) as ->
      by now apply includes_In.
    reflexivity.
Qed.

Lemma getExecutableType_shapes_witness :
  Syntax1.getExecutableType "   1 #!/usr/bin/perl" = Ok (JStr "perl")
  /\ Syntax1.getExecutableType "   1 #!/usr/bin/perl -w -T" = Ok (JStr "perl")
  /\ Syntax1.getExecutableType "   1 #!/usr/bin/env perl -w" = Ok (JStr "perl").
Proof.
  assert (In "perl" Syntax1.VALID_LANG_NAMES) as Hl by (simpl; auto 20).
  destruct (getExecutableType_shapes "   1 " "/usr/bin" "perl" eq_refl eq_refl Hl)
    as (H1 & H2 & H3).
  split; [exact H1|]. split; [exact (H2 "-w -T" eq_refl eq_refl)|].
  apply (H3 "env" " -w"); try reflexivity.
  - not_in_literals.
  - right. now exists "-w".
Defined.

(** Close an equivalence between two facts about literals. *)
Ltac literal_iff :=
  split;
  [ first
      [ discriminate
      | intros _; first [ now left | right; eexists; split; [reflexivity | simpl; auto 20] ]
      | let H := fresh in
        intros H; injection H as <-; eexists; split; [reflexivity | simpl; auto 20] ]
  | first
      [ intros _; reflexivity
      | let H := fresh in let Hin := fresh in let l := fresh in
        intros [H|(l & H & Hin)];
        [ discriminate
        | injection H as <-; exfalso; revert Hin; not_in_literals ]
      | let H := fresh in let Hin := fresh in let l := fresh in
        intros (l & H & Hin); first [ discriminate | injection H as <- ];
        simpl in Hin;
        repeat (destruct Hin as [Hin|Hin];
                [first [discriminate | now injection Hin as <-]|]);
        contradiction ] ].

(** X15: in the revision with [VALID_LANG_NAMES] the shebang gives a file
    type only for [bash], [perl], [php], [python] and [ruby]; for the other
    eight names of [VALID_LANG_NAMES], as for an interpreter that is not
    recognised, the table of executables has no entry and the file type
    handed on is [undefined]. *)
Theorem executableFileType_defined (fslocText : string) :
  (forall s : string,
     Syntax1.executableFileType fslocText = Ok (JStr s)
     <-> exists l, Syntax1.getExecutableType fslocText = Ok (JStr l)
                   /\ In (l, s) [("bash", "sh"); ("perl", "pl"); ("php", "php");
                                 ("python", "py"); ("ruby", "rb")])
  /\ (Syntax1.executableFileType fslocText = Ok JUndefined
      <-> Syntax1.getExecutableType fslocText = Ok JNull
          \/ exists l, Syntax1.getExecutableType fslocText = Ok (JStr l)
                       /\ In l ["c"; "cpp"; "css"; "javascript"; "go"; "html";
                                "markdown"; "xml"])
  /\ Syntax1.executableFileType fslocText <> Ok JNull.
Proof.
  unfold Syntax1.executableFileType, Engine.executableFileType.
  fold Syntax1.getExecutableType.
  destruct (Syntax1.getExecutableType fslocText) as [v|e] eqn:Hv; cbn [bind].
  - apply getExecutableType_names in Hv as [->|(l & -> & Hin)].
    + split; [intros s|split]; [literal_iff | literal_iff | discriminate].
    + simpl in Hin.
      repeat (destruct Hin as [<-|Hin];
        [split; [intros s|split]; [literal_iff | literal_iff | discriminate]|]).
      contradiction.
  - split; [intros s; split; [discriminate | intros (l & H & _); discriminate]|].
    split; [|discriminate].
    split; [discriminate | intros [H|(l & H & _)]; discriminate].
Qed.

(** ** What the later revisions return and throw *)

Lemma occurs_truthy (a : ascii) (sep s : string) :
  occurs (String a sep) s -> truthy (JStr s) = true.
Proof.
  intros H. destruct s; [|reflexivity].
  exfalso. revert H. apply occurs_empty. discriminate.
Qed.

Lemma occurs_dec (a : ascii) (sep s : string) :
  occurs (String a sep) s \/ ~ occurs (String a sep) s.
Proof.
  destruct (toBool (getLastIndex (split (String a sep) s))) eqn:E.
  - left. now apply toBool_getLastIndex_split.
  - right. now apply toBool_getLastIndex_split_false.
Qed.

(** Past the two gates the page handler is [highlightSyntax]. *)
Lemma Engine_onReady_blob
  (primary : haystack) (synonyms assocs : object (list string))
  (names : result haystack) (exec : object string) (tab : string)
  (queryString fslocText : string) :
  occurs ";a=blob" queryString ->
  Engine.onReady primary synonyms assocs names exec tab queryString fslocText
  = Engine.highlightSyntax primary synonyms assocs names exec tab queryString fslocText.
Proof.
  intros H. unfold Engine.onReady, Engine.isFileBlob.
  change (toArray (JStr queryString) (SepString ";a=blob"))
    with (Ok (split ";a=blob" queryString)).
  cbn [bind]. rewrite (occurs_truthy _ _ _ H).
  apply toBool_getLastIndex_split in H. now rewrite H.
Qed.

(** With the primary file types in an array, a first line without the
    marker lets [highlightSyntax] decide on the extension alone. *)
Lemma Engine_highlightSyntax_no_marker
  (primary : list string) (synonyms assocs : object (list string))
  (names : result haystack) (exec : object string) (tab : string)
  (queryString fslocText : string) :
  ~ occurs "#!" fslocText ->
  Engine.highlightSyntax (HArray primary) synonyms assocs names exec tab
    queryString fslocText
  = Ok (if (length (split ";f=" queryString) - 1 =? 0)%nat then Returned
        else
          let fileType :=
            JStr (Syntax0.fileTypeOf (Syntax0.pathNameOf (split ";f=" queryString))) in
          if (includes fileType primary
              || Engine.isFileTypeSynonym synonyms fileType)%bool
          then
            let fileType :=
              if includes fileType primary then fileType
              else Syntax0.getPrimaryFileType_loop synonyms fileType in
            Configured tab
              (if negb (includes fileType (keys assocs)) then [fileType]
               else Syntax0.concat [fileType] (get assocs (propertyKey fileType)))
          else Returned).
Proof.
  intros Hm. unfold Engine.highlightSyntax.
  rewrite fileTypeOf_Syntax0. cbn [bind].
  destruct (length (split ";f=" queryString) - 1 =? 0)%nat; [reflexivity|].
  cbn zeta.
  set (fileType := JStr (Syntax0.fileTypeOf _)).
  rewrite (finalFileType_without_marker _ _ _ _ _ _ Hm).
  apply isExecutable_false in Hm.
  unfold Engine.isFileTypeValid, Engine.primaryOf, Engine.getPrimaryFileType,
    Engine.getFileTypeAssocs, inArray, getKeys.
  cbn [bind]. rewrite Hm. cbn [bind].
  destruct (includes fileType primary); cbn [orb negb bind].
  - now destruct (negb (includes fileType (keys assocs))).
  - destruct (Engine.isFileTypeSynonym synonyms fileType); cbn [negb bind];
      [|reflexivity].
    rewrite getPrimaryFileType_loop_Ok. cbn [bind].
    now destruct (negb (includes _ (keys assocs))).
Qed.

(** X16: the revision with [VALID_LANG_NAMES] never throws: for every
    query string and every first line [highlightSyntax] and the page handler
    return, with or without a call of the highlighter. *)
Theorem Syntax1_never_throws (queryString fslocText : string) :
  (exists o, Syntax1.highlightSyntax queryString fslocText = Ok o)
  /\ (exists o, Syntax1.onReady queryString fslocText = Ok o).
Proof.
  assert (exists o, Syntax1.highlightSyntax queryString fslocText = Ok o) as Hh.
  { destruct (occurs_dec "#" "!" fslocText) as [Hm|Hm].
    - unfold Syntax1.highlightSyntax, Engine.highlightSyntax.
      rewrite fileTypeOf_Syntax0. cbn [bind].
      destruct (length (split ";f=" queryString) - 1 =? 0)%nat; [eauto|].
      set (fileType := JStr (Syntax0.fileTypeOf _)).
      destruct (getExecutableType_total Syntax1.VALID_LANG_NAMES fslocText Hm)
        as [v Hv].
      apply isExecutable_true in Hm.
      unfold Engine.isFileTypeValid, Engine.finalFileType, Engine.executableFileType,
        inArray.
      cbn [bind]. rewrite Hm. cbn [bind]. rewrite Hv. cbn [bind].
      match goal with
      | |- context [Engine.getFileTypeAssocs ?a ?f] =>
          destruct (getFileTypeAssocs_Ok a f) as [languages ->]
      end.
      cbn [bind].
      destruct (includes fileType Syntax1.VALID_FILE_TYPES); cbn [bind negb]; [eauto|].
      destruct (Engine.isFileTypeSynonym _ _); cbn [bind negb]; [eauto|].
      destruct (truthy v); cbn [negb]; eauto.
    - unfold Syntax1.highlightSyntax.
      rewrite (Engine_highlightSyntax_no_marker _ _ _ _ _ _ _ _ Hm). eauto. }
  split; [exact Hh|].
  destruct (occurs_dec ";" "a=blob" queryString) as [Hb|Hb].
  - unfold Syntax1.onReady. rewrite (Engine_onReady_blob _ _ _ _ _ _ _ _ Hb).
    exact Hh.
  - exists Returned. apply Engine_onReady_gate. now left.
Qed.

(** X17: the revision that hands [LANG_PRIMARY_FILE_TYPES] itself to
    [inArray] highlights nothing: on a query string with [;a=blob] and
    [;f=] its page handler throws a [TypeError], whatever the first line,
    on any other it returns, and it never calls the highlighter. *)
Theorem Syntax2_never_highlights (queryString fslocText : string) :
  (Syntax2.onReady queryString fslocText = Throw TypeError
   <-> occurs ";a=blob" queryString /\ occurs ";f=" queryString)
  /\ (Syntax2.onReady queryString fslocText = Ok Returned
      <-> ~ (occurs ";a=blob" queryString /\ occurs ";f=" queryString))
  /\ forall tab languages,
       Syntax2.onReady queryString fslocText <> Ok (Configured tab languages).
Proof.
  destruct (occurs_dec ";" "a=blob" queryString) as [Hb|Hb];
    [destruct (occurs_dec ";" "f=" queryString) as [Hf|Hf]|].
  - assert (Syntax2.onReady queryString fslocText = Throw TypeError) as ->.
    { unfold Syntax2.onReady. rewrite (Engine_onReady_blob _ _ _ _ _ _ _ _ Hb).
      now apply Syntax2_highlightSyntax_throws. }
    repeat split; try discriminate; try tauto.
  - assert (Syntax2.onReady queryString fslocText = Ok Returned) as ->
      by (apply Engine_onReady_gate; now right).
    repeat split; try discriminate; try tauto.
  - assert (Syntax2.onReady queryString fslocText = Ok Returned) as ->
      by (apply Engine_onReady_gate; now left).
    repeat split; try discriminate; try tauto.
Qed.

(** X18: the last revision throws exactly when the page is a blob page
    that names a file and the first line holds [#!], and then it is the
    [ReferenceError] of [LANG_NAMES]: no shebang is ever resolved, and a
    page without one is handled without an exception. *)
Theorem Syntax3_throws_iff_marker (queryString fslocText : string) :
  (Syntax3.onReady queryString fslocText = Throw ReferenceError
   <-> occurs ";a=blob" queryString /\ occurs ";f=" queryString
       /\ occurs "#!" fslocText)
  /\ Syntax3.onReady queryString fslocText <> Throw TypeError
  /\ (occurs "#!" fslocText ->
      forall tab languages,
        Syntax3.onReady queryString fslocText <> Ok (Configured tab languages)).
Proof.
  destruct (occurs_dec ";" "a=blob" queryString) as [Hb|Hb];
    [destruct (occurs_dec ";" "f=" queryString) as [Hf|Hf];
       [destruct (occurs_dec "#" "!" fslocText) as [Hm|Hm]|]|].
  - assert (Syntax3.onReady queryString fslocText = Throw ReferenceError) as ->.
    { unfold Syntax3.onReady. rewrite (Engine_onReady_blob _ _ _ _ _ _ _ _ Hb).
      now apply Syntax3_highlightSyntax_throws. }
    repeat split; try discriminate; try tauto.
  - unfold Syntax3.onReady. rewrite (Engine_onReady_blob _ _ _ _ _ _ _ _ Hb).
    rewrite (Engine_highlightSyntax_no_marker _ _ _ _ _ _ _ _ Hm).
    repeat split; try discriminate; try tauto.
  - assert (Syntax3.onReady queryString fslocText = Ok Returned) as ->
      by (apply Engine_onReady_gate; now right).
    repeat split; try discriminate; try tauto.
  - assert (Syntax3.onReady queryString fslocText = Ok Returned) as ->
      by (apply Engine_onReady_gate; now left).
    repeat split; try discriminate; try tauto.
Qed.

Lemma Syntax3_throws_iff_marker_witness :
  occurs "#!" "#!/bin/bash"
  /\ Syntax3.onReady ";a=blob;f=run.sh" "#!/bin/bash"
     <> Ok (Configured "  " [JStr "bash"]).
Proof.
  assert (occurs "#!" "#!/bin/bash") as Hm
    by (apply toBool_getLastIndex_split; reflexivity).
  split; [exact Hm|].
  exact (proj2 (proj2 (Syntax3_throws_iff_marker ";a=blob;f=run.sh" "#!/bin/bash"))
           Hm "  " [JStr "bash"]).
Defined.

Lemma Engine_isFileTypeSynonym_In (synonyms : object (list string)) (t : string) :
  Engine.isFileTypeSynonym synonyms (JStr t) = true -> In t (flat_map snd synonyms).
Proof. apply isFileTypeSynonym_loop_In. Qed.

(** The languages of one case: strings of the given list, none twice. *)
Ltac literal_languages :=
  split; [discriminate|];
  split;
  [ repeat constructor; eexists; (split; [reflexivity | simpl; auto 30])
  | repeat constructor; not_in_literals ].

(** X19: on a first line without [#!], whenever one of the two revisions
    that can resolve an extension configures the highlighter, the languages
    are strings, at least one and none twice, never [null] or [undefined]:
    in the revision with [VALID_LANG_NAMES] they are primary file types, in
    the last revision keys of [LANG_PRIMARY_FILE_TYPES] or types of the
    association table. *)
Theorem languages_without_marker
  (queryString fslocText tab : string) (languages : list jsval) :
  ~ occurs "#!" fslocText ->
  (Syntax1.onReady queryString fslocText = Ok (Configured tab languages) ->
   languages <> []
   /\ Forall (fun v => exists s, v = JStr s /\ In s Syntax1.VALID_FILE_TYPES) languages
   /\ NoDup languages)
  /\ (Syntax3.onReady queryString fslocText = Ok (Configured tab languages) ->
      languages <> []
      /\ Forall (fun v => exists s, v = JStr s
                   /\ In s (getKeys Tables.LANG_PRIMARY_FILE_TYPES
                            ++ flat_map snd Tables.FILE_TYPE_ASSOCIATIONS)) languages
      /\ NoDup languages).
Proof.
  intros Hm.
  destruct (occurs_dec ";" "a=blob" queryString) as [Hb|Hb];
    [|unfold Syntax1.onReady, Syntax3.onReady;
      rewrite !Engine_onReady_gate by (now left); split; discriminate].
  unfold Syntax1.onReady, Syntax3.onReady.
  rewrite !(Engine_onReady_blob _ _ _ _ _ _ _ _ Hb).
  rewrite !(Engine_highlightSyntax_no_marker _ _ _ _ _ _ _ _ Hm).
  destruct (length (split ";f=" queryString) - 1 =? 0)%nat; [split; discriminate|].
  cbn zeta.
  generalize (Syntax0.fileTypeOf (Syntax0.pathNameOf (split ";f=" queryString))).
  intros tok. split.
  - destruct (includes (JStr tok) Syntax1.VALID_FILE_TYPES
              || Engine.isFileTypeSynonym Syntax1.VALID_FILE_TYPE_SYNONYMS (JStr tok))%bool
      eqn:Hv; [|discriminate].
    assert (In tok (Syntax1.VALID_FILE_TYPES
                    ++ flat_map snd Syntax1.VALID_FILE_TYPE_SYNONYMS)) as Hin.
    { apply orb_true_iff in Hv as [H|H]; apply in_or_app;
        [left; now apply includes_In | right; now apply Engine_isFileTypeSynonym_In]. }
    clear Hv. simpl in Hin.
    repeat (destruct Hin as [<-|Hin]; [intros [= _ <-]; literal_languages|]).
    contradiction.
  - destruct (includes (JStr tok) (getKeys Tables.LANG_PRIMARY_FILE_TYPES)
              || Engine.isFileTypeSynonym Tables.LANG_FILE_TYPE_SYNONYMS (JStr tok))%bool
      eqn:Hv; [|discriminate].
    assert (In tok (getKeys Tables.LANG_PRIMARY_FILE_TYPES
                    ++ flat_map snd Tables.LANG_FILE_TYPE_SYNONYMS)) as Hin.
    { apply orb_true_iff in Hv as [H|H]; apply in_or_app;
        [left; now apply includes_In | right; now apply Engine_isFileTypeSynonym_In]. }
    clear Hv. simpl in Hin.
    repeat (destruct Hin as [<-|Hin]; [intros [= _ <-]; literal_languages|]).
    contradiction.
Qed.

Lemma languages_without_marker_witness :
  [JStr "py"] <> []
  /\ Forall (fun v => exists s, v = JStr s /\ In s Syntax1.VALID_FILE_TYPES) [JStr "py"]
  /\ NoDup [JStr "py"].
Proof.
  assert (~ occurs "#!" "   1 import os") as Hm
    by (apply toBool_getLastIndex_split_false; reflexivity).
  apply (proj1 (languages_without_marker ";a=blob;f=tool.pyc" "   1 import os" "  "
                  [JStr "py"] Hm)).
  reflexivity.
Defined.

(** ** The synonym table in the later revisions *)

Lemma Engine_synonym_loops_agree (entries : object (list string)) (fileType : jsval) :
  Engine.isFileTypeSynonym_loop entries fileType
  = Syntax0.isFileTypeSynonym_loop entries fileType.
Proof.
  induction entries as [|[k syns] rest IH]; simpl; [reflexivity | now rewrite IH].
Qed.

Lemma Engine_loops_agree (entries : object (list string)) (fileType : jsval) :
  (Engine.isFileTypeSynonym_loop entries fileType = true
   <-> exists key, In key (keys entries)
                   /\ Engine.getPrimaryFileType_loop entries fileType = Ok (JStr key))
  /\ (Engine.isFileTypeSynonym_loop entries fileType = false
      <-> Engine.getPrimaryFileType_loop entries fileType = Ok JNull).
Proof.
  rewrite Engine_synonym_loops_agree, getPrimaryFileType_loop_Ok.
  destruct (synonym_loops_agree entries fileType) as [Ht Hf].
  split; split.
  - intros H. apply Ht in H as (key & Hk & He).
    exists key. split; [exact Hk | now rewrite He].
  - intros (key & Hk & [= He]). apply Ht. eauto.
  - intros H. apply Hf in H. now rewrite H.
  - intros [= H]. now apply Hf.
Qed.

(** X20: in the revisions built on [Utils], [getPrimaryFileType], which
    searches with [inArray], never throws, and it returns a key of the
    synonym table exactly when the synonym predicate ([isFileTypeSynonym],
    later [isSynonymFileType]) answers true, and [null] exactly when it
    answers false. *)
Theorem getPrimaryFileType_agrees (t : string) :
  ((Syntax1.isFileTypeSynonym (JStr t) = true
    <-> exists key, In key (keys Syntax1.VALID_FILE_TYPE_SYNONYMS)
                    /\ Syntax1.getPrimaryFileType (JStr t) = Ok (JStr key))
   /\ (Syntax1.isFileTypeSynonym (JStr t) = false
       <-> Syntax1.getPrimaryFileType (JStr t) = Ok JNull))
  /\ ((Syntax3.isSynonymFileType (JStr t) = true
       <-> exists key, In key (keys Tables.LANG_FILE_TYPE_SYNONYMS)
                       /\ Syntax3.getPrimaryFileType (JStr t) = Ok (JStr key))
      /\ (Syntax3.isSynonymFileType (JStr t) = false
          <-> Syntax3.getPrimaryFileType (JStr t) = Ok JNull)).
Proof. split; apply Engine_loops_agree. Qed.

(** ** End to end in the first revision *)

Lemma occurs_app (sep a b : string) : occurs sep a -> occurs sep (a ++ b).
Proof.
  intros (pre & post & ->). exists pre, (post ++ b)%string.
  now rewrite !append_assoc.
Qed.

Lemma occurs_f (pre rest : string) : occurs ";f=" (pre ++ ";f=" ++ rest).
Proof. now exists pre, rest. Qed.

(** X21: end to end in the first revision, for every blob query string
    whose first [;f=] is followed by a path that ends in a dot and a token
    (no [;f] before it, no semicolon in the path, and the end or a semicolon
    after it): a token that is a primary file type is highlighted as itself;
    any other token of the synonym array of a key [t] is highlighted as [t];
    a token without a dot or slash that is neither is not highlighted. *)
Theorem onReady_end_to_end (pre dir tok tail : string) :
  occurs ";a=blob" pre -> ~ occurs ";f" pre ->
  has_char ";" dir = false ->
  has_char ";" tok = false -> has_char "." tok = false -> has_char "/" tok = false ->
  tail = "" \/ (exists rest, tail = String ";" rest) ->
  let queryString := (pre ++ ";f=" ++ (dir ++ "." ++ tok) ++ tail)%string in
  (In tok Syntax0.VALID_FILE_TYPES ->
   Syntax0.onReady queryString
   = Configured " " (Syntax0.getFileTypeAssocs (JStr tok)))
  /\ (forall t syns,
        ~ In tok Syntax0.VALID_FILE_TYPES ->
        In (t, syns) Syntax0.VALID_FILE_TYPE_SYNONYMS -> In tok syns ->
        Syntax0.onReady queryString
        = Configured " " (Syntax0.getFileTypeAssocs (JStr t)))
  /\ (~ In tok Syntax0.VALID_FILE_TYPES ->
      (forall t syns, In (t, syns) Syntax0.VALID_FILE_TYPE_SYNONYMS -> ~ In tok syns) ->
      Syntax0.onReady queryString = Returned).
Proof.
  intros Hblob Hpre Hdir Htok Hdot Hslash Htail queryString.
  assert (has_char ";" (dir ++ "." ++ tok) = false) as Hpath
    by (rewrite has_char_app, Hdir; simpl; exact Htok).
  assert (Syntax0.onReady queryString = Syntax0.highlightSyntax queryString) as ->.
  { unfold Syntax0.onReady, Syntax0.isFileBlob.
    assert (occurs ";a=blob" queryString) as Hb by now apply occurs_app.
    rewrite (occurs_truthy _ _ _ Hb). cbn [negb].
    apply split_occurs in Hb.
    destruct (length (split ";a=blob" queryString) - 1 =? 0)%nat eqn:E;
      [apply Nat.eqb_eq in E; lia | reflexivity]. }
  subst queryString.
  destruct (first_file_parameter_aux pre (dir ++ "." ++ tok) tail Hpre Hpath Htail)
    as [_ ->].
  rewrite (fileTypeOf_extension dir tok Hdot Hslash).
  fold (Syntax0.primaryOf tok).
  split; [|split].
  - intros Hin. rewrite (primaryOf_primary tok Hin).
    apply includes_In in Hin. now rewrite Hin.
  - intros t syns Hno Hin Hsyn.
    assert (Syntax0.isFileTypeSynonym (JStr tok) = true) as ->.
    { destruct (synonym_loops_agree Syntax0.VALID_FILE_TYPE_SYNONYMS (JStr tok))
        as [Ht _].
      apply Ht. exists t. split.
      - apply (in_map fst) in Hin. exact Hin.
      - apply (getPrimaryFileType_loop_found _ tok t syns); auto.
        apply synonyms0_disjoint. }
    rewrite orb_true_r. unfold Syntax0.primaryOf.
    apply includes_not_In in Hno. rewrite Hno. cbn [negb].
    unfold Syntax0.getPrimaryFileType.
    now rewrite (getPrimaryFileType_loop_found _ tok t syns synonyms0_disjoint Hin Hsyn).
  - intros Hno Hnone.
    assert (Syntax0.isFileTypeSynonym (JStr tok) = false) as ->.
    { destruct (synonym_loops_agree Syntax0.VALID_FILE_TYPE_SYNONYMS (JStr tok))
        as [_ Hf].
      apply Hf. now apply getPrimaryFileType_loop_none. }
    apply includes_not_In in Hno. now rewrite Hno.
Qed.

Lemma onReady_end_to_end_witness :
  Syntax0.onReady "?p=r.git;a=blob;f=web/index.xhtml;hb=HEAD"
  = Configured " " (Syntax0.getFileTypeAssocs (JStr "html")).
Proof.
  assert (forall s, ~ occurs ";f" s <-> toBool (getLastIndex (split ";f" s)) = false)
    as E by (intros s; symmetry; apply toBool_getLastIndex_split_false).
  assert (~ occurs ";f" "?p=r.git;a=blob") as Hpre by (apply E; reflexivity).
  assert (occurs ";a=blob" "?p=r.git;a=blob") as Hblob by now exists "?p=r.git", "".
  assert (";hb=HEAD" = "" \/ (exists rest, ";hb=HEAD" = String ";" rest)) as Htail
    by (right; now exists "hb=HEAD").
  apply (proj1 (proj2 (onReady_end_to_end "?p=r.git;a=blob" "web/index" "xhtml"
                         ";hb=HEAD" Hblob Hpre eq_refl eq_refl eq_refl eq_refl Htail))
           "html" ["htm"; "dhtml"; "xhtml"]).
  - not_in_literals.
  - simpl. auto.
  - simpl. auto.
Defined.

(** ** The extension in the later revisions *)

Lemma Engine_primaryOf_cases
  (primary : list string) (synonyms : object (list string)) (tok : string) :
  (forall key, In key (keys synonyms) -> In key primary) ->
  exists v,
    Engine.primaryOf (HArray primary) synonyms (JStr tok) = Ok v
    /\ (v = JNull <-> (includes (JStr tok) primary
                       || Engine.isFileTypeSynonym synonyms (JStr tok))%bool = false)
    /\ v <> JUndefined
    /\ forall t, v = JStr t ->
                 In t primary
                 /\ Engine.primaryOf (HArray primary) synonyms (JStr t) = Ok (JStr t).
Proof.
  intros Hkeys.
  assert (forall t, In t primary ->
                    Engine.primaryOf (HArray primary) synonyms (JStr t) = Ok (JStr t))
    as Hself.
  { intros t Hin. unfold Engine.primaryOf, inArray. cbn [bind].
    apply includes_In in Hin. now rewrite Hin. }
  unfold Engine.primaryOf at 1, inArray, Engine.getPrimaryFileType,
    Engine.isFileTypeSynonym. cbn [bind].
  destruct (Engine_loops_agree synonyms (JStr tok)) as [Ht Hf].
  destruct (includes (JStr tok) primary) eqn:E; cbn [negb orb].
  - exists (JStr tok). repeat split; try discriminate.
    + injection H as <-. now apply includes_In.
    + injection H as <-. apply Hself. now apply includes_In.
  - destruct (Engine.isFileTypeSynonym_loop synonyms (JStr tok)).
    + destruct (proj1 Ht eq_refl) as (key & Hk & ->).
      exists (JStr key). repeat split; try discriminate.
      * injection H as <-. auto.
      * injection H as <-. auto.
    + rewrite (proj1 Hf eq_refl). exists JNull. repeat split; discriminate.
Qed.

(** X22: in the revision with [VALID_LANG_NAMES] and in the last one, the
    extension arm never throws and resolves a token to [null] exactly when
    it is neither a primary file type nor a synonym, never to [undefined],
    and otherwise to a primary file type, which resolves to itself. *)
Theorem primaryOf_later_range (tok : string) :
  (exists v,
     Syntax1.primaryOf (JStr tok) = Ok v
     /\ (v = JNull <-> (includes (JStr tok) Syntax1.VALID_FILE_TYPES
                        || Syntax1.isFileTypeSynonym (JStr tok))%bool = false)
     /\ v <> JUndefined
     /\ forall t, v = JStr t ->
                  In t Syntax1.VALID_FILE_TYPES
                  /\ Syntax1.primaryOf (JStr t) = Ok (JStr t))
  /\ (exists v,
        Syntax3.primaryOf (JStr tok) = Ok v
        /\ (v = JNull <-> (includes (JStr tok) (getKeys Tables.LANG_PRIMARY_FILE_TYPES)
                           || Syntax3.isSynonymFileType (JStr tok))%bool = false)
        /\ v <> JUndefined
        /\ forall t, v = JStr t ->
                     In t (getKeys Tables.LANG_PRIMARY_FILE_TYPES)
                     /\ Syntax3.primaryOf (JStr t) = Ok (JStr t)).
Proof.
  split; apply Engine_primaryOf_cases; simpl; intros key H;
    repeat (destruct H as [<-|H]; [auto 30|]); contradiction.
Qed.

Lemma primaryOf_later_range_witness :
  Syntax3.primaryOf (JStr "zsh") = Ok (JStr "bash")
  /\ In "bash" (getKeys Tables.LANG_PRIMARY_FILE_TYPES)
  /\ Syntax3.primaryOf (JStr "bash") = Ok (JStr "bash").
Proof.
  destruct (proj2 (primaryOf_later_range "zsh")) as (v & Hv & _ & _ & H).
  assert (v = JStr "bash") as E by (cbv in Hv; now injection Hv as <-).
  split; [reflexivity|]. exact (H "bash" E).
Defined.

(** X23: the last revision accepts as extension the names of the
    languages, the keys of [LANG_PRIMARY_FILE_TYPES], not their file types:
    a file type of that table that is not also a key ([sh], [js], [md],
    [pl], [py], [rb], [ts], [yml]) is refused, so on a first line without
    [#!] a path that ends in a dot and such a file type is not
    highlighted. *)
Theorem Syntax3_refuses_file_types
  (pre dir lang tok tail fslocText : string) :
  occurs ";a=blob" pre -> ~ occurs ";f" pre ->
  has_char ";" dir = false ->
  tail = "" \/ (exists rest, tail = String ";" rest) ->
  In (lang, tok) Tables.LANG_PRIMARY_FILE_TYPES ->
  ~ In tok (getKeys Tables.LANG_PRIMARY_FILE_TYPES) ->
  ~ occurs "#!" fslocText ->
  Syntax3.isValidFileType (JStr tok) fslocText = Ok false
  /\ Syntax3.onReady (pre ++ ";f=" ++ (dir ++ "." ++ tok) ++ tail) fslocText
     = Ok Returned.
Proof.
  intros Hblob Hpre Hdir Htail Hin Hno Hm.
  assert (In tok ["sh"; "js"; "md"; "pl"; "py"; "rb"; "ts"; "yml"]) as Htok.
  { simpl in Hin.
    repeat (destruct Hin as [Hin|Hin];
      [injection Hin as <- <-;
       first [exfalso; apply Hno; simpl; now auto 30 | simpl; now auto 30]|]).
    contradiction. }
  clear Hin Hno lang.
  assert (Engine.isExecutable fslocText = Ok false) as He
    by now apply isExecutable_false.
  split.
  - unfold Syntax3.isValidFileType, Engine.isFileTypeValid, inArray. cbn [bind].
    rewrite He. simpl in Htok.
    repeat (destruct Htok as [<-|Htok]; [reflexivity|]). contradiction.
  - unfold Syntax3.onReady.
    rewrite Engine_onReady_blob by now apply occurs_app.
    rewrite (Engine_highlightSyntax_no_marker _ _ _ _ _ _ _ _ Hm).
    assert (has_char ";" tok = false /\ has_char "." tok = false
            /\ has_char "/" tok = false) as (H1 & H2 & H3).
    { simpl in Htok.
      repeat (destruct Htok as [<-|Htok]; [repeat split; reflexivity|]).
      contradiction. }
    assert (has_char ";" (dir ++ "." ++ tok) = false) as Hpath
      by (rewrite has_char_app, Hdir; simpl; exact H1).
    destruct (pathNameOf_first pre (dir ++ "." ++ tok) tail Hpre Hpath Htail)
      as (more & -> & Hmore & ->).
    rewrite (fileTypeOf_extension dir tok H2 H3).
    destruct more as [|m more]; [contradiction|].
    simpl in Htok.
    repeat (destruct Htok as [<-|Htok]; [reflexivity|]). contradiction.
Qed.

Lemma Syntax3_refuses_file_types_witness :
  Syntax3.isValidFileType (JStr "py") "   1 import os" = Ok false
  /\ Syntax3.onReady "?p=r.git;a=blob;f=tools/run.py;hb=HEAD" "   1 import os"
     = Ok Returned.
Proof.
  assert (forall sep s, sep <> "" ->
            toBool (getLastIndex (split sep s)) = false -> ~ occurs sep s) as E.
  { intros [|a sep] s Hs H; [contradiction|].
    now apply toBool_getLastIndex_split_false. }
  apply (Syntax3_refuses_file_types "?p=r.git;a=blob" "tools/run" "python" "py"
           ";hb=HEAD" "   1 import os").
  - now exists "?p=r.git", "".
  - apply E; [discriminate | reflexivity].
  - reflexivity.
  - right. now exists "hb=HEAD".
  - simpl. auto 30.
  - not_in_literals.
  - apply E; [discriminate | reflexivity].
Defined.

(** ** The type predicates *)

(** X24: [isScalar] and [isComposite] never throw and never both answer
    true; the values for which both answer false are the functions and the
    big integers.  A scalar is no object; an array is an object and
    composite but no native object; a function is an object but not
    composite; [null] is composite but no object. *)
Theorem type_predicates (v : UtilsTypes.kind) :
  (exists s c : bool,
     UtilsTypes.isScalar v = Ok s /\ UtilsTypes.isComposite v = Ok c
     /\ (s && c)%bool = false
     /\ ((s || c)%bool = false
         <-> v = UtilsTypes.KFunction \/ v = UtilsTypes.KBigInt)
     /\ (s = true -> UtilsTypes.isObject v = false))
  /\ (UtilsTypes.isArray v = true ->
      UtilsTypes.isObject v = true /\ UtilsTypes.isComposite v = Ok true
      /\ UtilsTypes.isNativeObject v = false)
  /\ (UtilsTypes.isFunction v = true ->
      UtilsTypes.isObject v = true /\ UtilsTypes.isComposite v = Ok false)
  /\ (UtilsTypes.isNativeObject v = true \/ UtilsTypes.isElement v = true ->
      UtilsTypes.isObject v = true /\ UtilsTypes.isComposite v = Ok true)
  /\ UtilsTypes.isComposite UtilsTypes.KNull = Ok true
  /\ UtilsTypes.isObject UtilsTypes.KNull = false.
Proof.
  split.
  - destruct v; eexists; eexists; (split; [reflexivity|]); (split; [reflexivity|]);
      (split; [reflexivity|]); (split; [|intros; first [reflexivity | discriminate]]);
      (split; [intros; first [discriminate | now left | now right]
              |intros [H|H]; first [discriminate | reflexivity]]).
  - split; [intros Ha; destruct v; try discriminate; repeat split; reflexivity|].
    split; [intros Hf; destruct v; try discriminate; repeat split; reflexivity|].
    split; [|split; reflexivity].
    intros [Hn|He]; destruct v; try discriminate; repeat split; reflexivity.
Qed.

Lemma type_predicates_witness :
  UtilsTypes.isObject UtilsTypes.KArray = true
  /\ UtilsTypes.isComposite UtilsTypes.KArray = Ok true
  /\ UtilsTypes.isNativeObject UtilsTypes.KArray = false.
Proof.
  apply (proj1 (proj2 (type_predicates UtilsTypes.KArray))). reflexivity.
Defined.
